(** * The invoice-payment ReAct loop of [reAct_beyond_llms.py]

    A shallow embedding of the tools, the [Reasoner] and [run_episode],
    followed by the properties the specification states about them.

    Modelling choices.
    - Python [int] is [Z]; amounts are cents.
    - A [datetime.date] is its proleptic ordinal, a [Z]; adding a
      [timedelta(days=n)] is adding [n], and dates compare as their ordinals.
    - [str] is [string]; [x in s] on strings is [contains], [endswith] is
      [endswith], membership in a set literal is a chain of [String.eqb].
    - Whatever the program asks its surroundings for is read from an [Env]:
      the current date (one value for a run, which is taken not to cross
      midnight and to lie more than 30 days after [date.min] and before
      [date.max]), the ISO timestamps of [datetime.now()], the text of the
      random [uuid4] values, and the text of the two renderings that leave
      the integers ([cents/100:.2f], a float, and the ISO text of a date).
    - [cents/100] is the true division of two [int]s: it raises
      [OverflowError] when the correctly rounded quotient is no float, that
      is when [|cents| >= 100 * (2^1024 - 2^970)].  [renders] decides it,
      and every place that formats an amount raises there, after whatever
      it has already changed.
    - Mutation is explicit: a tool that changes the [Account] or draws a
      uuid returns the new account and the new uuid count; the orchestrator
      runs in a state-and-exception monad over a [World]. *)

From Stdlib Require Import ZArith List String Ascii Bool Lia.
From Stdlib Require Import DecimalString.
Import ListNotations.

Local Open Scope string_scope.
Local Open Scope Z_scope.

(* ================================================================== *)
(** ** Strings *)

(** [needle in hay] for two Python strings. *)
Fixpoint contains (needle hay : string) : bool :=
  String.prefix needle hay ||
  match hay with
  | EmptyString => false
  | String _ rest => contains needle rest
  end.

(** [s.endswith(suffix)]. *)
Fixpoint endswith (s suffix : string) : bool :=
  String.eqb s suffix ||
  match s with
  | EmptyString => false
  | String _ rest => endswith rest suffix
  end.

(** [str(n)] for a non-negative [int] held in a [nat]. *)
Definition str_nat (n : nat) : string :=
  NilZero.string_of_uint (Nat.to_uint n).
Arguments str_nat : simpl never.

(* ================================================================== *)
(** ** Domain model and memory *)

Definition date := Z.

Record Invoice := mkInvoice {
  invoice_id : string;
  vendor_id : string;
  amount : Z;
  currency : string;
  due_date : date;
  memo : string
}.

Record Account := mkAccount {
  account_id : string;
  balance_cents : Z;
  daily_limit_cents : Z;
  spent_today_cents : Z
}.

Record PaymentPlan := mkPaymentPlan {
  total_cents : Z;
  plan_currency : string;
  immediate_cents : Z;
  scheduled_cents : Z;
  scheduled_date : option date
}.

Record Memory := mkMemory {
  invoice : Invoice;
  account : Account;
  vendor_kyc_ok : option bool;
  vendor_aml_ok : option bool;
  payment_plan : option PaymentPlan;
  executed_amount_cents : Z;
  scheduled : bool;
  errors : list string;
  audit_log : list string
}.

(** [Memory(invoice, account)]: every other field at its default. *)
Definition new_Memory (inv : Invoice) (acct : Account) : Memory :=
  mkMemory inv acct None None None 0 false [] [].

Definition set_account (a : Account) (m : Memory) : Memory :=
  mkMemory (invoice m) a (vendor_kyc_ok m) (vendor_aml_ok m) (payment_plan m)
           (executed_amount_cents m) (scheduled m) (errors m) (audit_log m).

Definition set_vendor_kyc_ok (b : option bool) (m : Memory) : Memory :=
  mkMemory (invoice m) (account m) b (vendor_aml_ok m) (payment_plan m)
           (executed_amount_cents m) (scheduled m) (errors m) (audit_log m).

Definition set_vendor_aml_ok (b : option bool) (m : Memory) : Memory :=
  mkMemory (invoice m) (account m) (vendor_kyc_ok m) b (payment_plan m)
           (executed_amount_cents m) (scheduled m) (errors m) (audit_log m).

Definition set_payment_plan (p : option PaymentPlan) (m : Memory) : Memory :=
  mkMemory (invoice m) (account m) (vendor_kyc_ok m) (vendor_aml_ok m) p
           (executed_amount_cents m) (scheduled m) (errors m) (audit_log m).

Definition set_executed_amount_cents (z : Z) (m : Memory) : Memory :=
  mkMemory (invoice m) (account m) (vendor_kyc_ok m) (vendor_aml_ok m)
           (payment_plan m) z (scheduled m) (errors m) (audit_log m).

Definition set_scheduled (b : bool) (m : Memory) : Memory :=
  mkMemory (invoice m) (account m) (vendor_kyc_ok m) (vendor_aml_ok m)
           (payment_plan m) (executed_amount_cents m) b (errors m) (audit_log m).

Definition set_audit_log (l : list string) (m : Memory) : Memory :=
  mkMemory (invoice m) (account m) (vendor_kyc_ok m) (vendor_aml_ok m)
           (payment_plan m) (executed_amount_cents m) (scheduled m) (errors m) l.

(* ================================================================== *)
(** ** The surroundings *)

Record Env := mkEnv {
  today : date;                 (* datetime.date.today() *)
  now_iso : nat -> string;      (* the k-th datetime.now().isoformat("seconds") *)
  uuid4_str : nat -> string;    (* str() of the k-th uuid.uuid4() *)
  fmt_2f : Z -> string;         (* the text of f"{cents/100:.2f}", when it renders *)
  date_str : date -> string     (* str() of a date *)
}.

(** What a run can change: the memory, how many timestamps and uuids have
    been drawn, and what [print] has written. *)
Record World := mkWorld {
  w_mem : Memory;
  w_clock : nat;
  w_uuids : nat;
  w_stdout : list string
}.

(* ================================================================== *)
(** ** Tools *)

Definition tool_validate_invoice (env : Env) (mem : Memory) : bool * string :=
  let inv := invoice mem in
  if amount inv <=? 0 then (false, "Invalid invoice amount.")
  else if negb (String.eqb (currency inv) "USD" ||
                String.eqb (currency inv) "EUR" ||
                String.eqb (currency inv) "GBP")
  then (false, "Unsupported currency " ++ currency inv ++ ".")
  else if due_date inv <? today env - 30 then (false, "Invoice is too old.")
  else (true, "Invoice validated.").

Definition tool_run_kyc (vendor : string) : bool * string :=
  let ok := negb (endswith vendor "X") in
  (ok, if ok then "KYC passed." else "KYC failed.").

Definition tool_run_aml_screening (vendor : string) : bool * string :=
  let ok := negb (String.eqb vendor "OFAC123" || String.eqb vendor "AML999") in
  (ok, if ok then "AML screening passed." else "AML screening flagged vendor.").

Definition tool_check_balance (acct : Account) (amount_cents : Z) : bool * string :=
  let ok := balance_cents acct >=? amount_cents in
  (ok, if ok then "Sufficient balance." else "Insufficient balance.").

Definition tool_check_daily_limit (acct : Account) (amount_cents : Z) : bool * string :=
  let ok := spent_today_cents acct + amount_cents <=? daily_limit_cents acct in
  (ok, if ok then "Within daily limit." else "Exceeds daily limit.").

Definition tool_propose_plan (env : Env) (mem : Memory)
  : bool * string * PaymentPlan :=
  let inv := invoice mem in
  let acct := account mem in
  let immediate := Z.min (amount inv) (balance_cents acct) in
  let remaining_limit := Z.max 0 (daily_limit_cents acct - spent_today_cents acct) in
  let immediate := Z.min immediate remaining_limit in
  if immediate <=? 0 then
    (true, "Proposed full scheduling for tomorrow.",
     mkPaymentPlan (amount inv) (currency inv) 0 (amount inv) (Some (today env + 1)))
  else
    let remainder := amount inv - immediate in
    if remainder >? 0 then
      (true, "Proposed split: partial now, remainder tomorrow.",
       mkPaymentPlan (amount inv) (currency inv) immediate remainder (Some (today env + 1)))
    else
      (true, "Proposed full payment now.",
       mkPaymentPlan (amount inv) (currency inv) (amount inv) 0 None).

(** [cents/100] is a float: the quotient, rounded to nearest-even, stays
    below [2^1024].  Beyond, Python raises [OverflowError]. *)
Definition float_limit : Z := 100 * (2 ^ 1024 - 2 ^ 970).

Definition renders (cents : Z) : bool := Z.abs cents <? float_limit.
Arguments renders : simpl never.

(** How a call ends: with the value it returns or with an exception. *)
Inductive Outcome (A : Type) :=
| Returns (a : A)
| Raises (exn : string).
Arguments Returns {A} _.
Arguments Raises {A} _.

(** [f"{cents/100:.2f}"]. *)
Definition fmt_cents (env : Env) (cents : Z) : Outcome string :=
  if renders cents then Returns (fmt_2f env cents) else Raises "OverflowError".

(** The result of a tool that may change the account and draw uuids: how
    it ended, and the account and the uuid count it left, which an
    exception does not roll back. *)
Record Effect (A : Type) := mkEffect {
  returned : Outcome A;
  acct_after : Account;
  uuids_after : nat
}.
Arguments mkEffect {A} _ _ _.
Arguments returned {A} _.
Arguments acct_after {A} _.
Arguments uuids_after {A} _.

(** The success flag a tool returned, if it returned. *)
Definition ok_of {A B} (o : Outcome (bool * A * B)) : option bool :=
  match o with
  | Returns (ok, _, _) => Some ok
  | Raises _ => None
  end.

(** The tool returned, and with success. *)
Definition succeeded {A B} (o : Outcome (bool * A * B)) : bool :=
  match o with
  | Returns (ok, _, _) => ok
  | Raises _ => false
  end.

(** The message and the identifier a tool returned. *)
Definition msg_of {A} (o : Outcome (bool * string * A)) : string :=
  match o with
  | Returns (_, msg, _) => msg
  | Raises _ => ""
  end.

Definition id_of {A} (o : Outcome (bool * A * string)) : string :=
  match o with
  | Returns (_, _, id) => id
  | Raises _ => ""
  end.

Definition tool_execute_payment (env : Env) (acct : Account) (cents : Z)
    (currency : string) (uuids : nat) : Effect (bool * string * string) :=
  if cents <=? 0 then
    mkEffect (Returns (true, "Nothing to execute.", uuid4_str env uuids))
             acct (S uuids)
  else if balance_cents acct <? cents then
    mkEffect (Returns (false, "Execution failed: insufficient funds.", ""))
             acct uuids
  else
    let acct' := mkAccount (account_id acct) (balance_cents acct - cents)
                           (daily_limit_cents acct) (spent_today_cents acct + cents) in
    let txn_id := uuid4_str env uuids in
    mkEffect
      match fmt_cents env cents with
      | Returns amount =>
          Returns (true, "Executed " ++ amount ++ " " ++ currency ++ ".", txn_id)
      | Raises exn => Raises exn
      end
      acct' (S uuids).

(** [str(date)], also for the [None] a plan without a scheduled part holds. *)
Definition str_date_opt (env : Env) (d : option date) : string :=
  match d with Some d => date_str env d | None => "None" end.

(** [tool_schedule_payment] is never handed an account; it only draws a uuid. *)
Definition tool_schedule_payment (env : Env) (d : option date) (cents : Z)
    (currency : string) (uuids : nat)
  : Outcome (bool * string * string) * nat :=
  if cents <=? 0 then
    (Returns (true, "Nothing to schedule.", uuid4_str env uuids), S uuids)
  else
    let sch_id := "SCH-" ++ uuid4_str env uuids in
    (match fmt_cents env cents with
     | Returns amount =>
         Returns (true,
                  "Scheduled " ++ amount ++ " " ++ currency ++ " for "
                    ++ str_date_opt env d ++ ".",
                  sch_id)
     | Raises exn => Raises exn
     end, S uuids).

(* ================================================================== *)
(** ** Reasoner *)

(** The action names [next_action] returns; the source's [None], for
    "done", is the [None] of [option Action]. *)
Inductive Action :=
| validate_invoice
| run_kyc
| run_aml
| propose_plan
| execute_immediate
| schedule_remainder.

Definition action_name (a : Action) : string :=
  match a with
  | validate_invoice => "validate_invoice"
  | run_kyc => "run_kyc"
  | run_aml => "run_aml"
  | propose_plan => "propose_plan"
  | execute_immediate => "execute_immediate"
  | schedule_remainder => "schedule_remainder"
  end.

(** [any("Invoice validated." in line for line in mem.audit_log)]. *)
Definition validation_logged (log : list string) : bool :=
  existsb (contains "Invoice validated.") log.
Arguments validation_logged : simpl never.

Definition next_action (mem : Memory) : option Action :=
  if negb (validation_logged (audit_log mem)) then Some validate_invoice
  else match vendor_kyc_ok mem with
  | None => Some run_kyc
  | Some _ =>
  match vendor_aml_ok mem with
  | None => Some run_aml
  | Some _ =>
  match payment_plan mem with
  | None => Some propose_plan
  | Some plan =>
    if executed_amount_cents mem <? immediate_cents plan then Some execute_immediate
    else if negb (scheduled mem) && (scheduled_cents plan >? 0)
    then Some schedule_remainder
    else None
  end end end.

(* ================================================================== *)
(** ** The orchestrator's monad: state over [World], with exceptions *)

Inductive Res (A : Type) :=
| Ok (a : A) (w : World)
| Raised (exn : string) (w : World).
Arguments Ok {A} _ _.
Arguments Raised {A} _ _.

Definition M (A : Type) := World -> Res A.

Definition ret {A} (a : A) : M A := fun w => Ok a w.

Definition bind {A B} (c : M A) (k : A -> M B) : M B :=
  fun w => match c w with
           | Ok a w' => k a w'
           | Raised e w' => Raised e w'
           end.

Definition raise {A} (e : string) : M A := fun w => Raised e w.

(** The world a computation leaves, whether it returned or raised. *)
Definition world_after {A} (r : Res A) : World :=
  match r with
  | Ok _ w => w
  | Raised _ w => w
  end.

Declare Scope run_scope.
Delimit Scope run_scope with run.
Notation "x <- c ;; k" := (bind c (fun x => k))
  (at level 61, c at next level, right associativity) : run_scope.
Notation "c ;; k" := (bind c (fun _ => k))
  (at level 61, right associativity) : run_scope.
Local Open Scope run_scope.

Definition get_mem : M Memory := fun w => Ok (w_mem w) w.

(** The world after [f] has been applied to the memory. *)
Definition with_mem (f : Memory -> Memory) (w : World) : World :=
  mkWorld (f (w_mem w)) (w_clock w) (w_uuids w) (w_stdout w).

Definition modify_mem (f : Memory -> Memory) : M unit :=
  fun w => Ok tt (with_mem f w).

(** The world after [Memory.log]: the message is stamped with the next
    clock reading and appended to the audit log, then printed. *)
Definition log_world (env : Env) (msg : string) (w : World) : World :=
  let timestamp := now_iso env (w_clock w) in
  let m := w_mem w in
  mkWorld (set_audit_log (audit_log m ++ [timestamp ++ " | " ++ msg]) m)
          (S (w_clock w)) (w_uuids w) (w_stdout w ++ [msg]).

Definition log (env : Env) (msg : string) : M unit :=
  fun w => Ok tt (log_world env msg w).

(** Reading an attribute of [mem.payment_plan]; Python raises
    [AttributeError] when the plan is [None]. *)
Definition the_plan : M PaymentPlan :=
  fun w => match payment_plan (w_mem w) with
           | Some p => ret p w
           | None => raise "AttributeError" w
           end.

(** [tool_execute_payment(mem.account, cents, currency)]: the account the
    tool mutates is the one the memory holds. *)
(** A call whose outcome is known, in the world it leaves. *)
Definition finish {A} (o : Outcome A) (w : World) : Res A :=
  match o with
  | Returns a => Ok a w
  | Raises exn => Raised exn w
  end.

Definition call_execute_payment (env : Env) (cents : Z) (cur : string)
  : M (bool * string * string) :=
  fun w =>
    let r := tool_execute_payment env (account (w_mem w)) cents cur (w_uuids w) in
    finish (returned r)
       (mkWorld (set_account (acct_after r) (w_mem w)) (w_clock w)
                (uuids_after r) (w_stdout w)).

Definition call_schedule_payment (env : Env) (d : option date) (cents : Z)
    (cur : string) : M (bool * string * string) :=
  fun w =>
    let r := tool_schedule_payment env d cents cur (w_uuids w) in
    finish (fst r) (mkWorld (w_mem w) (w_clock w) (snd r) (w_stdout w)).

(** [f"{cents/100:.2f}"] inside the orchestrator's own f-strings. *)
Definition render (env : Env) (cents : Z) : M string :=
  fun w => finish (fmt_cents env cents) w.

(* ================================================================== *)
(** ** ReAct orchestrator *)

Inductive Signal := Continue | Break.

(** The branch of the [if]/[elif] chain for one action. *)
Definition dispatch (env : Env) (step : nat) (action : Action) : M Signal :=
  match action with
  | validate_invoice =>
      mem <- get_mem ;;
      let '(ok, msg) := tool_validate_invoice env mem in
      log env ("Action " ++ str_nat step ++ ": validate_invoice()") ;;
      log env ("Observation " ++ str_nat step ++ ": " ++ msg) ;;
      ret (if ok then Continue else Break)
  | run_kyc =>
      mem <- get_mem ;;
      let '(ok, msg) := tool_run_kyc (vendor_id (invoice mem)) in
      modify_mem (set_vendor_kyc_ok (Some ok)) ;;
      log env ("Action " ++ str_nat step ++ ": run_kyc("
                 ++ vendor_id (invoice mem) ++ ")") ;;
      log env ("Observation " ++ str_nat step ++ ": " ++ msg) ;;
      ret (if ok then Continue else Break)
  | run_aml =>
      mem <- get_mem ;;
      let '(ok, msg) := tool_run_aml_screening (vendor_id (invoice mem)) in
      modify_mem (set_vendor_aml_ok (Some ok)) ;;
      log env ("Action " ++ str_nat step ++ ": run_aml("
                 ++ vendor_id (invoice mem) ++ ")") ;;
      log env ("Observation " ++ str_nat step ++ ": " ++ msg) ;;
      ret (if ok then Continue else Break)
  | propose_plan =>
      mem <- get_mem ;;
      let '(ok, msg, plan) := tool_propose_plan env mem in
      modify_mem (set_payment_plan (if ok then Some plan else None)) ;;
      log env ("Action " ++ str_nat step ++ ": propose_plan()") ;;
      log env ("Observation " ++ str_nat step ++ ": " ++ msg) ;;
      ret Continue
  | execute_immediate =>
      plan <- the_plan ;;
      let cents := immediate_cents plan in
      r <- call_execute_payment env cents (plan_currency plan) ;;
      let '(ok, msg, txn) := r in
      amount <- render env cents ;;
      log env ("Action " ++ str_nat step ++ ": execute_payment("
                 ++ amount ++ " " ++ plan_currency plan ++ ")") ;;
      log env ("Observation " ++ str_nat step ++ ": " ++ msg
                 ++ " (txn=" ++ txn ++ ")") ;;
      (if ok then modify_mem (set_executed_amount_cents cents) else ret tt) ;;
      ret Continue
  | schedule_remainder =>
      plan <- the_plan ;;
      let cents := scheduled_cents plan in
      let d := scheduled_date plan in
      r <- call_schedule_payment env d cents (plan_currency plan) ;;
      let '(ok, msg, sch) := r in
      amount <- render env cents ;;
      log env ("Action " ++ str_nat step ++ ": schedule_payment("
                 ++ amount ++ " " ++ plan_currency plan ++ " on "
                 ++ str_date_opt env d ++ ")") ;;
      log env ("Observation " ++ str_nat step ++ ": " ++ msg
                 ++ " (id=" ++ sch ++ ")") ;;
      (if ok then modify_mem (set_scheduled true) else ret tt) ;;
      ret Continue
  end.

(** One pass through the body of [while True], [step] already incremented. *)
Definition iteration (env : Env) (step : nat) : M Signal :=
  mem <- get_mem ;;
  match next_action mem with
  | None =>
      log env ("Thought " ++ str_nat step ++ ": Done.") ;;
      ret Break
  | Some action =>
      log env ("Thought " ++ str_nat step ++ ": Deciding to '"
                 ++ action_name action ++ "'.") ;;
      dispatch env step action
  end.

(** How a run of the loop ends, when it is given [fuel] iterations. *)
Inductive Run :=
| Finished (w : World)                 (* left the loop by [break] *)
| Crashed (exn : string) (w : World)   (* an exception escaped *)
| OutOfFuel (w : World).               (* still looping *)

(** [loop fuel step w]: up to [fuel] iterations, [step] being the value of
    the counter before the next one. *)
Fixpoint loop (env : Env) (fuel : nat) (step : nat) (w : World) : Run :=
  match fuel with
  | O => OutOfFuel w
  | S fuel' =>
      match iteration env (S step) w with
      | Ok Break w' => Finished w'
      | Ok Continue w' => loop env fuel' (S step) w'
      | Raised e w' => Crashed e w'
      end
  end.

Definition run_episode (env : Env) (fuel : nat) (w : World) : Run :=
  loop env fuel 0 w.

(** A memory fresh from its constructor, in surroundings that have already
    handed out [clk] timestamps and [ids] uuids and printed [out]. *)
Definition fresh_world (inv : Invoice) (acct : Account)
    (clk ids : nat) (out : list string) : World :=
  mkWorld (new_Memory inv acct) clk ids out.

(** The worlds at the head of the loop: [reachable env w0 k w] when the
    [k]-th iteration of a run started in [w0] ended without [break] in [w]. *)
Inductive reachable (env : Env) (w0 : World) : nat -> World -> Prop :=
| reach_start : reachable env w0 O w0
| reach_next k w w' :
    reachable env w0 k w ->
    iteration env (S k) w = Ok Continue w' ->
    reachable env w0 (S k) w'.

(* ================================================================== *)
(** ** The planner as a guard chain

    An ordered list of (guard, action) pairs, read top to bottom.  Two
    chains: the one the specification words, whose first two guards ask
    whether an audit entry records a successful validation, and the one
    the planner runs, which asks whether an audit line contains the text
    of the success message. *)

Definition is_set {A} (o : option A) : bool :=
  match o with Some _ => true | None => false end.

Definition is_digit (c : ascii) : bool :=
  (48 <=? nat_of_ascii c)%nat && (nat_of_ascii c <=? 57)%nat.

Fixpoint drop_digits (s : string) : string :=
  match s with
  | String c rest => if is_digit c then drop_digits rest else s
  | EmptyString => EmptyString
  end.

(** An audit entry that records a successful validation: the line
    [<timestamp> | Observation <step>: Invoice validated.], the timestamp
    being the 19 characters of an ISO date and time to the second and the
    step a decimal number. *)
Definition records_success (line : string) : bool :=
  let body := substring 19 (String.length line - 19) line in
  let tail := substring 15 (String.length body - 15) body in
  String.prefix " | Observation " body
  && negb (String.eqb (drop_digits tail) tail)
  && String.eqb (drop_digits tail) ": Invoice validated.".





(** The three currencies [tool_validate_invoice] accepts. *)
Definition supported_currency (c : string) : Prop :=
  c = "USD" \/ c = "EUR" \/ c = "GBP".

(** The conditions on which the loop is left by [break]. *)
Definition halts_here (env : Env) (m : Memory) : Prop :=
  next_action m = None
  \/ (next_action m = Some validate_invoice
      /\ fst (tool_validate_invoice env m) = false)
  \/ (next_action m = Some run_kyc
      /\ fst (tool_run_kyc (vendor_id (invoice m))) = false)
  \/ (next_action m = Some run_aml
      /\ fst (tool_run_aml_screening (vendor_id (invoice m))) = false).

(** The function each action invokes, as the Action line names it. *)
Definition invocation_name (a : Action) : string :=
  match a with
  | validate_invoice => "validate_invoice"
  | run_kyc => "run_kyc"
  | run_aml => "run_aml"
  | propose_plan => "propose_plan"
  | execute_immediate => "execute_payment"
  | schedule_remainder => "schedule_payment"
  end.

(** What the Action line shows between the brackets, read off the memory
    the iteration starts from. *)
Definition key_arguments (env : Env) (m : Memory) (a : Action) : string :=
  match a, payment_plan m with
  | validate_invoice, _ | propose_plan, _ => ""
  | run_kyc, _ | run_aml, _ => vendor_id (invoice m)
  | execute_immediate, Some p =>
      fmt_2f env (immediate_cents p) ++ " " ++ plan_currency p
  | schedule_remainder, Some p =>
      fmt_2f env (scheduled_cents p) ++ " " ++ plan_currency p ++ " on "
        ++ str_date_opt env (scheduled_date p)
  | _, None => ""
  end.

(** What the Observation line shows: the message of the handler run on the
    world the iteration starts from, and the identifier it produced. *)
Definition observation (env : Env) (w : World) (a : Action) : string :=
  let m := w_mem w in
  match a, payment_plan m with
  | validate_invoice, _ => snd (tool_validate_invoice env m)
  | run_kyc, _ => snd (tool_run_kyc (vendor_id (invoice m)))
  | run_aml, _ => snd (tool_run_aml_screening (vendor_id (invoice m)))
  | propose_plan, _ => snd (fst (tool_propose_plan env m))
  | execute_immediate, Some p =>
      let r := returned (tool_execute_payment env (account m) (immediate_cents p)
                           (plan_currency p) (w_uuids w)) in
      msg_of r ++ " (txn=" ++ id_of r ++ ")"
  | schedule_remainder, Some p =>
      let r := fst (tool_schedule_payment env (scheduled_date p)
                      (scheduled_cents p) (plan_currency p) (w_uuids w)) in
      msg_of r ++ " (id=" ++ id_of r ++ ")"
  | _, None => ""
  end.

(** The amount an iteration formats: that of the payment it executes or
    schedules. *)
Definition amount_formatted (m : Memory) : option Z :=
  match next_action m, payment_plan m with
  | Some execute_immediate, Some p => Some (immediate_cents p)
  | Some schedule_remainder, Some p => Some (scheduled_cents p)
  | _, _ => None
  end.

(** The iteration meets no amount that does not render. *)
Definition iteration_renders (m : Memory) : bool :=
  match amount_formatted m with
  | Some cents => renders cents
  | None => true
  end.

(** An audit line: the timestamp of the [k]-th clock reading, then the text. *)
Definition stamped (env : Env) (k : nat) (msg : string) : string :=
  now_iso env k ++ " | " ++ msg.
Arguments stamped : simpl never.

(** How many iterations a memory is away from [Done], at most: one for each
    step the planner still has to go through. *)
Definition pending (m : Memory) : nat :=
  ((if validation_logged (audit_log m) then 0 else 1)
   + (if is_set (vendor_kyc_ok m) then 0 else 1)
   + (if is_set (vendor_aml_ok m) then 0 else 1)
   + match payment_plan m with
     | None => 3
     | Some p =>
         (if (executed_amount_cents m <? immediate_cents p)%Z then 1 else 0)
         + (if negb (scheduled m) && (scheduled_cents p >? 0)%Z then 1 else 0)
     end)%nat.

(** A plan whose immediate part is still to be executed is covered by the
    balance (or asks for nothing). *)
Definition plan_covered (m : Memory) : Prop :=
  match payment_plan m with
  | None => True
  | Some p =>
      executed_amount_cents m < immediate_cents p ->
      immediate_cents p <= Z.max 0 (balance_cents (account m))
  end.

(** Every amount the run will format renders: the parts of the plan, or,
    before there is a plan, the invoice amount they are cut from. *)
Definition amounts_render (m : Memory) : Prop :=
  match payment_plan m with
  | Some p =>
      renders (immediate_cents p) = true /\ renders (scheduled_cents p) = true
  | None => renders (amount (invoice m)) = true
  end.

(* ================================================================== *)
(** ** A concrete environment, for examples *)

(** Two digits, zero padded. *)
Definition two_digits (n : Z) : string :=
  (if n <? 10 then "0" else "") ++ NilZero.string_of_int (Z.to_int n).

(** [f"{cents/100:.2f}"] where the float division is exact to the cent
    (|cents| below 2^52). *)
Definition cents_2f (cents : Z) : string :=
  (if cents <? 0 then "-" else "")
    ++ NilZero.string_of_int (Z.to_int (Z.abs cents / 100))
    ++ "." ++ two_digits (Z.abs cents mod 100).

(** [date.fromordinal(d).isoformat()] for years 1000 to 9999. *)
Definition iso_date (d : Z) : string :=
  let z := d + 305 in
  let era := z / 146097 in
  let doe := z mod 146097 in
  let yoe := (doe - doe / 1460 + doe / 36524 - doe / 146096) / 365 in
  let doy := doe - (365 * yoe + yoe / 4 - yoe / 100) in
  let mp := (5 * doy + 2) / 153 in
  let day := doy - (153 * mp + 2) / 5 + 1 in
  let month := if mp <? 10 then mp + 3 else mp - 9 in
  let year := yoe + era * 400 + (if month <=? 2 then 1 else 0) in
  NilZero.string_of_int (Z.to_int year) ++ "-" ++ two_digits month
    ++ "-" ++ two_digits day.

(** The 4th of November 2026, a clock that ticks once a second from
    07:20:00, and uuids that count up. *)
Definition demo_env : Env :=
  mkEnv 739924
        (fun k => "2026-11-04T07:20:" ++ two_digits (Z.of_nat k mod 60))
        (fun k => "00000000-0000-4000-8000-0000000000" ++ two_digits (Z.of_nat k mod 100))
        cents_2f
        iso_date.

(** The invoice and the account of the demo run at the foot of the source. *)
Definition demo_invoice : Invoice :=
  mkInvoice "INV-1001" "ACME_CO" 25000 "USD" (739924 + 5) "Monthly hosting fee".

Definition demo_account : Account :=
  mkAccount "OPERATING-USD" 18000 50000 0.

Definition demo_world : World :=
  fresh_world demo_invoice demo_account 0 0 [].

(** The demo memory once the plan is proposed: validation logged, both
    screenings passed, nothing executed yet. *)
Definition demo_planned_memory : Memory :=
  mkMemory demo_invoice demo_account (Some true) (Some true)
           (Some (mkPaymentPlan 25000 "USD" 18000 7000 (Some 739925)))
           0 false []
           ["2026-11-04T07:20:02 | Observation 1: Invoice validated."].

(** The demo memory once everything is paid and scheduled. *)
Definition demo_done_memory : Memory :=
  mkMemory demo_invoice (mkAccount "OPERATING-USD" 0 50000 18000)
           (Some true) (Some true)
           (Some (mkPaymentPlan 25000 "USD" 18000 7000 (Some 739925)))
           18000 true []
           ["2026-11-04T07:20:02 | Observation 1: Invoice validated."].

(** A memory handed to the loop with a plan its account cannot cover. *)
Definition demo_uncovered_memory : Memory :=
  mkMemory demo_invoice (mkAccount "OPERATING-USD" 100 50000 0)
           (Some true) (Some true)
           (Some (mkPaymentPlan 25000 "USD" 18000 7000 (Some 739925)))
           0 false []
           ["2026-11-04T07:20:02 | Observation 1: Invoice validated."].

(** An invoice whose amount in units is beyond the floats, and an account
    that can pay it twice. *)
Definition huge_invoice : Invoice :=
  mkInvoice "INV-2001" "ACME_CO" (10 ^ 311) "USD" (739924 + 5) "Acquisition".

Definition rich_account : Account :=
  mkAccount "OPERATING-USD" (2 * 10 ^ 311) (2 * 10 ^ 311) 0.

(** The world four iterations into the run on them: the plan, full
    payment now, is proposed and nothing is executed yet. *)
Definition huge_planned_world : World :=
  mkWorld
    (mkMemory huge_invoice rich_account (Some true) (Some true)
              (Some (mkPaymentPlan (10 ^ 311) "USD" (10 ^ 311) 0 None))
              0 false []
              ["2026-11-04T07:20:02 | Observation 1: Invoice validated."])
    12 0 [].

(** An account that has already spent more than its daily limit. *)
Definition overspent_account : Account :=
  mkAccount "OPERATING-USD" 18000 10000 15000.


(* ================================================================== *)
(** ** Whole runs *)

(** The world a run of the loop ends in, however it ends. *)
Definition world_of (r : Run) : World :=
  match r with
  | Finished w => w
  | Crashed _ w => w
  | OutOfFuel w => w
  end.

(** The audit lines of the messages [msgs], logged from clock reading [k]. *)
Fixpoint stamp_from (env : Env) (k : nat) (msgs : list string) : list string :=
  match msgs with
  | [] => []
  | msg :: rest => (now_iso env k ++ " | " ++ msg) :: stamp_from env (S k) rest
  end.

(** What one iteration does to the memory apart from the audit log, how
    it ends (with a signal or an exception) and the uuid count it leaves:
    the branch of [run_episode] for the planner's answer, without the
    calls of [log]. *)
Definition iteration_effect (env : Env) (w : World)
  : Memory * Outcome Signal * nat :=
  let m := w_mem w in
  match next_action m with
  | None => (m, Returns Break, w_uuids w)
  | Some validate_invoice =>
      (m, Returns (if fst (tool_validate_invoice env m) then Continue else Break),
       w_uuids w)
  | Some run_kyc =>
      let ok := fst (tool_run_kyc (vendor_id (invoice m))) in
      (set_vendor_kyc_ok (Some ok) m,
       Returns (if ok then Continue else Break), w_uuids w)
  | Some run_aml =>
      let ok := fst (tool_run_aml_screening (vendor_id (invoice m))) in
      (set_vendor_aml_ok (Some ok) m,
       Returns (if ok then Continue else Break), w_uuids w)
  | Some propose_plan =>
      (set_payment_plan (Some (snd (tool_propose_plan env m))) m,
       Returns Continue, w_uuids w)
  | Some execute_immediate =>
      match payment_plan m with
      | None => (m, Raises "AttributeError", w_uuids w)
      | Some p =>
          let r := tool_execute_payment env (account m) (immediate_cents p)
                                        (plan_currency p) (w_uuids w) in
          let m1 := set_account (acct_after r) m in
          match returned r with
          | Raises exn => (m1, Raises exn, uuids_after r)
          | Returns (ok, _, _) =>
              if renders (immediate_cents p)
              then (if ok then set_executed_amount_cents (immediate_cents p) m1
                    else m1, Returns Continue, uuids_after r)
              else (m1, Raises "OverflowError", uuids_after r)
          end
      end
  | Some schedule_remainder =>
      match payment_plan m with
      | None => (m, Raises "AttributeError", w_uuids w)
      | Some p =>
          if renders (scheduled_cents p)
          then (set_scheduled true m, Returns Continue, S (w_uuids w))
          else (m, Raises "OverflowError", S (w_uuids w))
      end
  end.

(** The account [a] after [z] cents have been paid from it. *)
Definition debited (a : Account) (z : Z) : Account :=
  mkAccount (account_id a) (balance_cents a - z) (daily_limit_cents a)
            (spent_today_cents a + z).

(** A memory no plan has been proposed for yet: nothing executed, nothing
    scheduled.  Fresh memories are such, and so is every memory a run left
    at a failed check. *)
Definition unplanned (m : Memory) : Prop :=
  payment_plan m = None /\ executed_amount_cents m = 0 /\ scheduled m = false.

(** What holds of the memory [m] at the head of every iteration of a run
    started on the unplanned memory [m0]. *)
Definition run_invariant (env : Env) (m0 m : Memory) : Prop :=
  invoice m = invoice m0
  /\ errors m = errors m0
  /\ ((executed_amount_cents m = 0 /\ account m = account m0)
      \/ (exists p, payment_plan m = Some p /\ 0 < immediate_cents p
                    /\ executed_amount_cents m = immediate_cents p
                    /\ account m = debited (account m0) (immediate_cents p)))
  /\ (payment_plan m = None -> scheduled m = false)
  /\ (forall p, payment_plan m = Some p ->
                p = snd (tool_propose_plan env m0)
                /\ (scheduled m = true -> 0 < scheduled_cents p)
                /\ validation_logged (audit_log m) = true
                /\ is_set (vendor_kyc_ok m) = true
                /\ is_set (vendor_aml_ok m) = true)
  /\ (validation_logged (audit_log m0) = true ->
      validation_logged (audit_log m) = true)
  /\ (is_set (vendor_kyc_ok m0) = true -> vendor_kyc_ok m = vendor_kyc_ok m0)
  /\ (is_set (vendor_aml_ok m0) = true -> vendor_aml_ok m = vendor_aml_ok m0)
  /\ (validation_logged (audit_log m) = false ->
      vendor_kyc_ok m = vendor_kyc_ok m0)
  /\ (validation_logged (audit_log m) = false \/ vendor_kyc_ok m = None ->
      vendor_aml_ok m = vendor_aml_ok m0).

(** The run went through to [Done]: the plan proposed for the memory it
    started from is in place, its immediate part is executed and debited,
    its scheduled part, if any, is scheduled. *)
Definition settled (env : Env) (m0 m' : Memory) : Prop :=
  let p := snd (tool_propose_plan env m0) in
  payment_plan m' = Some p
  /\ immediate_cents p + scheduled_cents p = amount (invoice m0)
  /\ executed_amount_cents m' = immediate_cents p
  /\ account m' = debited (account m0) (immediate_cents p)
  /\ scheduled m' = (0 <? scheduled_cents p)
  /\ validation_logged (audit_log m') = true
  /\ is_set (vendor_kyc_ok m') = true
  /\ is_set (vendor_aml_ok m') = true.

(** The run was stopped by a check it ran and that failed: no plan, the
    account as it was, nothing executed or scheduled. *)
Definition stopped_by_check (env : Env) (m0 m' : Memory) : Prop :=
  payment_plan m' = None
  /\ account m' = account m0
  /\ executed_amount_cents m' = 0
  /\ scheduled m' = false
  /\ ((validation_logged (audit_log m0) = false
       /\ fst (tool_validate_invoice env m0) = false
       /\ vendor_kyc_ok m' = vendor_kyc_ok m0
       /\ vendor_aml_ok m' = vendor_aml_ok m0)
      \/ (vendor_kyc_ok m0 = None
          /\ fst (tool_run_kyc (vendor_id (invoice m0))) = false
          /\ vendor_kyc_ok m' = Some false
          /\ vendor_aml_ok m' = vendor_aml_ok m0)
      \/ (vendor_aml_ok m0 = None
          /\ fst (tool_run_aml_screening (vendor_id (invoice m0))) = false
          /\ vendor_aml_ok m' = Some false)).

(** What no iteration touches: the invoice, the error list, the account's
    identifier and daily limit, and the sum of balance and [spent_today];
    the balance itself only goes down. *)
Definition conserved (m m' : Memory) : Prop :=
  invoice m' = invoice m
  /\ errors m' = errors m
  /\ account_id (account m') = account_id (account m)
  /\ daily_limit_cents (account m') = daily_limit_cents (account m)
  /\ balance_cents (account m') + spent_today_cents (account m')
     = balance_cents (account m) + spent_today_cents (account m)
  /\ balance_cents (account m') <= balance_cents (account m).

(** What no iteration undoes: a recorded validation, a KYC or AML verdict,
    a plan, a scheduling; the executed amount never goes down. *)
Definition kept (m m' : Memory) : Prop :=
  (validation_logged (audit_log m) = true ->
   validation_logged (audit_log m') = true)
  /\ (forall b, vendor_kyc_ok m = Some b -> vendor_kyc_ok m' = Some b)
  /\ (forall b, vendor_aml_ok m = Some b -> vendor_aml_ok m' = Some b)
  /\ (forall p, payment_plan m = Some p -> payment_plan m' = Some p)
  /\ (scheduled m = true -> scheduled m' = true)
  /\ executed_amount_cents m <= executed_amount_cents m'.

(** The audit log and the output of [w'] are those of [w] with the same
    messages added to both, stamped in the log with the clock readings
    taken since. *)
Definition log_mirrors_output (env : Env) (w w' : World) : Prop :=
  exists msgs,
    w_stdout w' = (w_stdout w ++ msgs)%list
    /\ audit_log (w_mem w') =
       (audit_log (w_mem w) ++ stamp_from env (w_clock w) msgs)%list
    /\ w_clock w' = (List.length msgs + w_clock w)%nat.




(** A memory a run left at a failed KYC check: validation logged, the KYC
    flag [False], nothing else done. *)
Definition demo_kyc_failed_memory : Memory :=
  mkMemory (mkInvoice "INV-1002" "ACME_COX" 25000 "USD" 739929 "Hosting")
           demo_account (Some false) None None 0 false []
           ["2026-11-04T07:20:02 | Observation 1: Invoice validated."].



(* ================================================================== *)
(** * Properties *)

(** ** Strings *)

Lemma prefix_refl (s : string) : String.prefix s s = true.
Proof.
  induction s as [|c s IH]; cbn; [reflexivity|].
  destruct (ascii_dec c c); [assumption | congruence].
Qed.

Lemma append_assoc (a b c : string) : (a ++ b) ++ c = a ++ b ++ c.
Proof. induction a as [|x a IH]; cbn; [reflexivity | now rewrite IH]. Qed.

Lemma contains_refl (s : string) : contains s s = true.
Proof. destruct s; cbn [contains]; rewrite prefix_refl; reflexivity. Qed.

Lemma contains_app_l (needle pre hay : string) :
  contains needle hay = true -> contains needle (pre ++ hay) = true.
Proof.
  intros H. induction pre as [|c pre IH]; cbn [append]; [assumption|].
  cbn [contains]. rewrite IH. apply orb_true_r.
Qed.

(** ** Validation *)

(** C6.  [tool_validate_invoice] reports "Invalid invoice amount." exactly
    when the amount is not positive; failing that, "Unsupported currency
    <c>." exactly when the currency is none of USD, EUR, GBP; failing that,
    "Invoice is too old." exactly when the due date lies more than 30 days
    before today; and succeeds otherwise.  It returns a value and nothing
    else: the memory it is handed is not part of its result. *)
Theorem validate_invoice_outcomes (env : Env) (mem : Memory) :
  let inv := invoice mem in
  let r := tool_validate_invoice env mem in
  (r = (false, "Invalid invoice amount.") <-> amount inv <= 0)
  /\ (r = (false, "Unsupported currency " ++ currency inv ++ ".")
      <-> 0 < amount inv /\ ~ supported_currency (currency inv))
  /\ (r = (false, "Invoice is too old.")
      <-> 0 < amount inv /\ supported_currency (currency inv)
          /\ due_date inv < today env - 30)
  /\ (r = (true, "Invoice validated.")
      <-> 0 < amount inv /\ supported_currency (currency inv)
          /\ today env - 30 <= due_date inv)
  /\ (fst r = false
      <-> amount inv <= 0 \/ ~ supported_currency (currency inv)
          \/ due_date inv < today env - 30).
Proof.
  cbv zeta. unfold tool_validate_invoice, supported_currency.
  destruct (Z.leb_spec (amount (invoice mem)) 0) as [Ha|Ha].
  { repeat split; intros; try discriminate; try lia; auto. }
  destruct (String.eqb_spec (currency (invoice mem)) "USD") as [Eu|Nu];
  destruct (String.eqb_spec (currency (invoice mem)) "EUR") as [Ee|Ne];
  destruct (String.eqb_spec (currency (invoice mem)) "GBP") as [Eg|Ng];
  cbn [orb negb];
  try (rewrite Eu in *); try (rewrite Ee in *); try (rewrite Eg in *);
  try discriminate;
  try (destruct (Z.ltb_spec (due_date (invoice mem)) (today env - 30)) as [Hd|Hd]);
  cbn [fst];
  repeat split; intros; try discriminate; try lia; try tauto;
  try (intuition (discriminate || lia || congruence)).
Qed.

(** ** Plan proposal *)

(** The immediate part of every proposed plan, in closed form. *)
Lemma propose_plan_immediate (env : Env) (mem : Memory) :
  immediate_cents (snd (tool_propose_plan env mem)) =
  Z.max 0 (Z.min (Z.min (amount (invoice mem)) (balance_cents (account mem)))
                 (Z.max 0 (daily_limit_cents (account mem)
                           - spent_today_cents (account mem)))).
Proof.
  unfold tool_propose_plan.
  destruct (Z.leb_spec
              (Z.min (Z.min (amount (invoice mem)) (balance_cents (account mem)))
                     (Z.max 0 (daily_limit_cents (account mem)
                               - spent_today_cents (account mem)))) 0) as [H|H];
    [cbn; lia|].
  match goal with |- context [?x >? 0] => destruct (Z.gtb_spec x 0) end;
    cbn; lia.
Qed.

(** C2, as the specification states it, fails: with 150.00 already spent
    against a daily limit of 100.00 the plan's immediate part is 0, which is
    not below [daily_limit - spent_today = -50.00]. *)
Lemma propose_plan_bound_fails :
  let mem := new_Memory demo_invoice overspent_account in
  let plan := snd (tool_propose_plan demo_env mem) in
  ~ (0 <= immediate_cents plan
       <= Z.min (Z.min (amount (invoice mem)) (balance_cents (account mem)))
                (daily_limit_cents (account mem) - spent_today_cents (account mem))).
Proof. cbn. lia. Qed.

(** C2, amended.  [tool_propose_plan] always succeeds; the plan's total is
    the invoice amount and its two parts add up to it; with
    [immediate = min(amount, balance, max(0, daily_limit - spent_today))],
    the plan is fully scheduled for tomorrow when [immediate <= 0], a split
    with the remainder scheduled for tomorrow when
    [0 < immediate < amount], and full payment now with nothing scheduled
    otherwise.  The immediate part is [max(0, immediate)]: never negative,
    and at most [min(amount, balance, daily_limit - spent_today)] exactly
    when that minimum is not negative.  The result is a value computed from
    the memory, which is not changed. *)
Theorem propose_plan_spec (env : Env) (mem : Memory) :
  let inv := invoice mem in
  let acct := account mem in
  let immediate :=
    Z.min (Z.min (amount inv) (balance_cents acct))
          (Z.max 0 (daily_limit_cents acct - spent_today_cents acct)) in
  let bound :=
    Z.min (Z.min (amount inv) (balance_cents acct))
          (daily_limit_cents acct - spent_today_cents acct) in
  let '(ok, msg, plan) := tool_propose_plan env mem in
  ok = true
  /\ total_cents plan = amount inv
  /\ plan_currency plan = currency inv
  /\ immediate_cents plan + scheduled_cents plan = amount inv
  /\ immediate_cents plan = Z.max 0 immediate
  /\ 0 <= immediate_cents plan
  /\ (immediate_cents plan <= bound <-> 0 <= bound)
  /\ (immediate <= 0 ->
      plan = mkPaymentPlan (amount inv) (currency inv) 0 (amount inv)
                           (Some (today env + 1))
      /\ msg = "Proposed full scheduling for tomorrow.")
  /\ (0 < immediate < amount inv ->
      plan = mkPaymentPlan (amount inv) (currency inv) immediate
                           (amount inv - immediate) (Some (today env + 1))
      /\ msg = "Proposed split: partial now, remainder tomorrow.")
  /\ (0 < immediate -> amount inv <= immediate ->
      plan = mkPaymentPlan (amount inv) (currency inv) (amount inv) 0 None
      /\ msg = "Proposed full payment now.").
Proof.
  cbv zeta. unfold tool_propose_plan.
  set (imm := Z.min (Z.min (amount (invoice mem)) (balance_cents (account mem)))
                    (Z.max 0 (daily_limit_cents (account mem)
                              - spent_today_cents (account mem)))).
  destruct (Z.leb_spec imm 0) as [H|H].
  { cbn. repeat split; intros; try reflexivity; try lia. }
  destruct (Z.gtb_spec (amount (invoice mem) - imm) 0) as [R|R].
  { cbn. repeat split; intros; try reflexivity; try lia. }
  cbn. repeat split; intros; try reflexivity; try lia.
Qed.

(** ** Payment execution and scheduling *)




(** What the orchestrator actually executes is the immediate part of a
    plan proposed on the same account, and that never takes [spent_today]
    past a daily limit it was within. *)
Lemma planned_execution_within_limit (env : Env) (mem : Memory) (uuids : nat) :
  spent_today_cents (account mem) <= daily_limit_cents (account mem) ->
  let plan := snd (tool_propose_plan env mem) in
  let r := tool_execute_payment env (account mem) (immediate_cents plan)
                                (plan_currency plan) uuids in
  spent_today_cents (acct_after r) <= daily_limit_cents (acct_after r).
Proof.
  intros H. cbv zeta.
  pose proof (propose_plan_immediate env mem) as Himm.
  unfold tool_execute_payment.
  destruct (Z.leb_spec (immediate_cents (snd (tool_propose_plan env mem))) 0);
    [exact H|].
  destruct (Z.ltb_spec (balance_cents (account mem))
                       (immediate_cents (snd (tool_propose_plan env mem))));
    [exact H|].
  cbn. lia.
Qed.

(** C8.  With an amount [<= 0], [tool_execute_payment] and
    [tool_schedule_payment] both succeed, and the account is afterwards what
    it was: through the orchestrator's own calls the whole memory is. *)
Theorem nonpositive_amount_is_noop (env : Env) (acct : Account) (d : option date)
    (cents : Z) (cur : string) (uuids : nat) (w : World) :
  cents <= 0 ->
  let r := tool_execute_payment env acct cents cur uuids in
  ok_of (returned r) = Some true
  /\ acct_after r = acct
  /\ balance_cents (acct_after r) = balance_cents acct
  /\ daily_limit_cents (acct_after r) = daily_limit_cents acct
  /\ spent_today_cents (acct_after r) = spent_today_cents acct
  /\ ok_of (fst (tool_schedule_payment env d cents cur uuids)) = Some true
  /\ (exists r' w', call_execute_payment env cents cur w = Ok r' w'
                    /\ fst (fst r') = true /\ w_mem w' = w_mem w)
  /\ (exists r' w', call_schedule_payment env d cents cur w = Ok r' w'
                    /\ fst (fst r') = true /\ w_mem w' = w_mem w).
Proof.
  intros H. cbv zeta.
  unfold call_execute_payment, call_schedule_payment,
    tool_execute_payment, tool_schedule_payment.
  destruct (Z.leb_spec cents 0) as [_|?]; [|lia].
  cbn. repeat split.
  - eexists _, _. repeat split. destruct w as [[] ? ? ?]; reflexivity.
  - eexists _, _. repeat split.
Qed.

Lemma nonpositive_amount_is_noop_demo :
  let r := tool_execute_payment demo_env demo_account 0 "USD" 0 in
  ok_of (returned r) = Some true /\ acct_after r = demo_account.
Proof.
  pose proof (nonpositive_amount_is_noop demo_env demo_account (Some 739925)
                0 "USD" 0%nat demo_world ltac:(lia)) as H.
  cbv zeta in H. split; apply H.
Defined.

(** ** The planner *)




(** The audit log of the demo run is such a log: its one line with the
    text is the Observation of the validation. *)
Example demo_log_quotes_nothing :
  forallb (fun line => Bool.eqb (contains "Invoice validated." line)
                                (records_success line))
          (audit_log (w_mem (world_of (run_episode demo_env 7 demo_world))))
  = true
  /\ existsb records_success
       (audit_log (w_mem (world_of (run_episode demo_env 7 demo_world))))
     = true.
Proof. split; vm_compute; reflexivity. Qed.

(** What each answer of the planner says about the memory. *)
Lemma next_action_inv (m : Memory) :
  match next_action m with
  | Some validate_invoice => validation_logged (audit_log m) = false
  | Some run_kyc =>
      validation_logged (audit_log m) = true /\ vendor_kyc_ok m = None
  | Some run_aml =>
      validation_logged (audit_log m) = true /\ is_set (vendor_kyc_ok m) = true
      /\ vendor_aml_ok m = None
  | Some propose_plan =>
      validation_logged (audit_log m) = true /\ is_set (vendor_kyc_ok m) = true
      /\ is_set (vendor_aml_ok m) = true /\ payment_plan m = None
  | Some execute_immediate =>
      validation_logged (audit_log m) = true /\ is_set (vendor_kyc_ok m) = true
      /\ is_set (vendor_aml_ok m) = true
      /\ exists p, payment_plan m = Some p
                   /\ executed_amount_cents m < immediate_cents p
  | Some schedule_remainder =>
      validation_logged (audit_log m) = true /\ is_set (vendor_kyc_ok m) = true
      /\ is_set (vendor_aml_ok m) = true
      /\ exists p, payment_plan m = Some p
                   /\ immediate_cents p <= executed_amount_cents m
                   /\ scheduled m = false /\ 0 < scheduled_cents p
  | None =>
      validation_logged (audit_log m) = true /\ is_set (vendor_kyc_ok m) = true
      /\ is_set (vendor_aml_ok m) = true
      /\ exists p, payment_plan m = Some p
                   /\ immediate_cents p <= executed_amount_cents m
                   /\ (scheduled m = true \/ scheduled_cents p <= 0)
  end.
Proof.
  unfold next_action.
  destruct (validation_logged (audit_log m)); cbn [negb]; [|reflexivity].
  destruct (vendor_kyc_ok m); [|auto].
  destruct (vendor_aml_ok m); [|cbn; auto].
  destruct (payment_plan m) as [p|]; [|cbn; auto].
  destruct (Z.ltb_spec (executed_amount_cents m) (immediate_cents p)).
  { cbn. repeat split. eauto. }
  destruct (scheduled m); cbn [negb andb].
  { cbn. repeat split. eauto. }
  destruct (Z.gtb_spec (scheduled_cents p) 0); cbn; repeat split;
    eexists; repeat split; eauto; lia.
Qed.

(** The only exception the two payment tools raise is the
    [OverflowError] of an amount that does not render. *)
Lemma execute_payment_outcome (env : Env) (acct : Account) (cents : Z)
    (cur : string) (uuids : nat) :
  let r := tool_execute_payment env acct cents cur uuids in
  (renders cents = true ->
   exists ok msg txn, returned r = Returns (ok, msg, txn))
  /\ (forall exn, returned r = Raises exn ->
                  exn = "OverflowError" /\ renders cents = false
                  /\ 0 < cents <= balance_cents acct).
Proof.
  cbv zeta. unfold tool_execute_payment, fmt_cents.
  destruct (Z.leb_spec cents 0); cbn [returned];
    [split; [eauto|discriminate]|].
  destruct (Z.ltb_spec (balance_cents acct) cents); cbn [returned];
    [split; [eauto|discriminate]|].
  destruct (renders cents); split; intros; eauto; try discriminate.
  match goal with H : Raises _ = Raises _ |- _ => injection H as <- end.
  repeat split; auto; lia.
Qed.

Lemma schedule_payment_outcome (env : Env) (d : option date) (cents : Z)
    (cur : string) (uuids : nat) :
  let r := tool_schedule_payment env d cents cur uuids in
  snd r = S uuids
  /\ (renders cents = true ->
      exists msg sch, fst r = Returns (true, msg, sch))
  /\ (forall ok msg sch, fst r = Returns (ok, msg, sch) -> ok = true)
  /\ (forall exn, fst r = Raises exn ->
                  exn = "OverflowError" /\ renders cents = false /\ 0 < cents).
Proof.
  cbv zeta. unfold tool_schedule_payment, fmt_cents.
  destruct (Z.leb_spec cents 0); cbn [fst snd].
  { repeat split; intros; eauto; try discriminate; congruence. }
  destruct (renders cents); repeat split; intros; eauto; try discriminate;
    try congruence.
Qed.

(** An iteration that executes or schedules goes on to the next one, or
    ends in the [OverflowError] of an amount that does not render. *)
Lemma planned_iteration_outcome (env : Env) (step : nat) (w : World)
    (a : Action) (p : PaymentPlan) :
  next_action (w_mem w) = Some a ->
  a = execute_immediate \/ a = schedule_remainder ->
  payment_plan (w_mem w) = Some p ->
  (exists w', iteration env step w = Ok Continue w')
  \/ (exists w', iteration env step w = Raised "OverflowError" w').
Proof.
  intros Hna Ha Hp.
  unfold iteration, bind, get_mem, log. rewrite Hna.
  destruct Ha; subst a; unfold dispatch, bind, the_plan, log, ret;
    cbn [w_mem log_world payment_plan set_audit_log]; rewrite Hp.
  - unfold call_execute_payment, render, fmt_cents.
    match goal with |- context [returned ?r] =>
      destruct (returned r) as [[[ok msg] txn]|exn] eqn:Hr end; cbn [finish].
    + destruct (renders (immediate_cents p)); cbn [finish];
        [left; destruct ok; cbn; eauto | right; eauto].
    + right. apply execute_payment_outcome in Hr. destruct Hr as (-> & _).
      eauto.
  - unfold call_schedule_payment, render, fmt_cents.
    match goal with |- context [fst ?r] =>
      destruct (fst r) as [[[ok msg] sch]|exn] eqn:Hr end; cbn [finish].
    + destruct (renders (scheduled_cents p)); cbn [finish];
        [left; destruct ok; cbn; eauto | right; eauto].
    + right. apply schedule_payment_outcome in Hr. destruct Hr as (-> & _).
      eauto.
Qed.

(** C10.  When the planner answers [execute_immediate] or
    [schedule_remainder] the memory holds a plan, so the reads of the
    plan's fields in these two branches find it: the iteration goes on to
    the next one, unless an amount does not render, and never ends in the
    [AttributeError] of a missing plan. *)
Theorem planned_actions_have_plan (env : Env) (step : nat) (w : World)
    (a : Action) :
  next_action (w_mem w) = Some a ->
  a = execute_immediate \/ a = schedule_remainder ->
  payment_plan (w_mem w) <> None
  /\ (exists p, payment_plan (w_mem w) = Some p /\ the_plan w = Ok p w)
  /\ ((exists w', iteration env step w = Ok Continue w')
      \/ (exists w', iteration env step w = Raised "OverflowError" w'))
  /\ (forall w', iteration env step w <> Raised "AttributeError" w').
Proof.
  intros Hna Ha.
  assert (exists p, payment_plan (w_mem w) = Some p) as [p Hp].
  { pose proof (next_action_inv (w_mem w)) as H. rewrite Hna in H.
    destruct Ha; subst a; destruct H as (_ & _ & _ & p & Hp & _); eauto. }
  split; [congruence|]. split.
  { exists p. split; [assumption|]. unfold the_plan. rewrite Hp. reflexivity. }
  pose proof (planned_iteration_outcome env step w a p Hna Ha Hp) as H.
  split; [exact H|].
  intros w' Hw. destruct H as [[w1 H]|[w1 H]]; rewrite H in Hw; discriminate.
Qed.

Lemma planned_actions_have_plan_demo :
  payment_plan demo_planned_memory <> None.
Proof.
  apply (planned_actions_have_plan demo_env 5
           (mkWorld demo_planned_memory 12 0 []) execute_immediate).
  - reflexivity.
  - left. reflexivity.
Defined.

(** ** One iteration, action by action *)

Lemma iteration_done (env : Env) (step : nat) (w : World) :
  next_action (w_mem w) = None ->
  iteration env step w =
  Ok Break (log_world env ("Thought " ++ str_nat step ++ ": Done.") w).
Proof. intros H. unfold iteration, bind, get_mem. rewrite H. reflexivity. Qed.

Lemma iteration_action (env : Env) (step : nat) (w : World) (a : Action) :
  next_action (w_mem w) = Some a ->
  iteration env step w =
  dispatch env step a
    (log_world env ("Thought " ++ str_nat step ++ ": Deciding to '"
                      ++ action_name a ++ "'.") w).
Proof. intros H. unfold iteration, bind, get_mem. rewrite H. reflexivity. Qed.

Lemma dispatch_validate (env : Env) (step : nat) (w : World) :
  let r := tool_validate_invoice env (w_mem w) in
  dispatch env step validate_invoice w =
  Ok (if fst r then Continue else Break)
     (log_world env ("Observation " ++ str_nat step ++ ": " ++ snd r)
        (log_world env ("Action " ++ str_nat step ++ ": validate_invoice()") w)).
Proof.
  cbv zeta. unfold dispatch, bind, get_mem.
  destruct (tool_validate_invoice env (w_mem w)) as [ok msg]. reflexivity.
Qed.

Lemma dispatch_kyc (env : Env) (step : nat) (w : World) :
  let v := vendor_id (invoice (w_mem w)) in
  let r := tool_run_kyc v in
  dispatch env step run_kyc w =
  Ok (if fst r then Continue else Break)
     (log_world env ("Observation " ++ str_nat step ++ ": " ++ snd r)
        (log_world env ("Action " ++ str_nat step ++ ": run_kyc(" ++ v ++ ")")
           (with_mem (set_vendor_kyc_ok (Some (fst r))) w))).
Proof. reflexivity. Qed.

Lemma dispatch_aml (env : Env) (step : nat) (w : World) :
  let v := vendor_id (invoice (w_mem w)) in
  let r := tool_run_aml_screening v in
  dispatch env step run_aml w =
  Ok (if fst r then Continue else Break)
     (log_world env ("Observation " ++ str_nat step ++ ": " ++ snd r)
        (log_world env ("Action " ++ str_nat step ++ ": run_aml(" ++ v ++ ")")
           (with_mem (set_vendor_aml_ok (Some (fst r))) w))).
Proof. reflexivity. Qed.

Lemma propose_plan_ok (env : Env) (mem : Memory) :
  fst (fst (tool_propose_plan env mem)) = true.
Proof.
  unfold tool_propose_plan.
  destruct (_ <=? 0); [reflexivity|]. destruct (_ >? 0); reflexivity.
Qed.

Lemma dispatch_propose (env : Env) (step : nat) (w : World) :
  let r := tool_propose_plan env (w_mem w) in
  dispatch env step propose_plan w =
  Ok Continue
     (log_world env ("Observation " ++ str_nat step ++ ": " ++ snd (fst r))
        (log_world env ("Action " ++ str_nat step ++ ": propose_plan()")
           (with_mem (set_payment_plan (Some (snd r))) w))).
Proof.
  cbv zeta. unfold dispatch, bind, get_mem.
  pose proof (propose_plan_ok env (w_mem w)) as Hok.
  destruct (tool_propose_plan env (w_mem w)) as [[ok msg] plan].
  cbn in Hok. subst ok. reflexivity.
Qed.

(** The world after [tool_execute_payment] has run on the memory's
    account, when the amount renders. *)
Lemma dispatch_execute (env : Env) (step : nat) (w : World) (p : PaymentPlan) :
  payment_plan (w_mem w) = Some p ->
  let cents := immediate_cents p in
  renders cents = true ->
  let r := tool_execute_payment env (account (w_mem w)) cents
                                (plan_currency p) (w_uuids w) in
  let w1 := mkWorld (set_account (acct_after r) (w_mem w)) (w_clock w)
                    (uuids_after r) (w_stdout w) in
  let w2 :=
    log_world env ("Observation " ++ str_nat step ++ ": "
                     ++ msg_of (returned r) ++ " (txn=" ++ id_of (returned r) ++ ")")
      (log_world env ("Action " ++ str_nat step ++ ": execute_payment("
                        ++ fmt_2f env cents ++ " " ++ plan_currency p ++ ")") w1) in
  dispatch env step execute_immediate w =
  Ok Continue (if succeeded (returned r)
               then with_mem (set_executed_amount_cents cents) w2 else w2).
Proof.
  intros Hp cents Hr. cbv zeta. subst cents.
  unfold dispatch, bind, the_plan, ret, call_execute_payment, render, fmt_cents.
  rewrite Hp, Hr.
  destruct (proj1 (execute_payment_outcome env (account (w_mem w))
                     (immediate_cents p) (plan_currency p) (w_uuids w)) Hr)
    as (ok & msg & txn & ->).
  destruct ok; reflexivity.
Qed.

(** When it does not, the exception leaves the world as the tool left it:
    nothing logged, the account debited if the amount was within the
    balance. *)
Lemma dispatch_execute_overflow (env : Env) (step : nat) (w : World)
    (p : PaymentPlan) :
  payment_plan (w_mem w) = Some p ->
  renders (immediate_cents p) = false ->
  let r := tool_execute_payment env (account (w_mem w)) (immediate_cents p)
                                (plan_currency p) (w_uuids w) in
  dispatch env step execute_immediate w =
  Raised "OverflowError"
         (mkWorld (set_account (acct_after r) (w_mem w)) (w_clock w)
                  (uuids_after r) (w_stdout w)).
Proof.
  intros Hp Hr. cbv zeta.
  unfold dispatch, bind, the_plan, ret, call_execute_payment, render, fmt_cents.
  rewrite Hp, Hr.
  destruct (returned _) as [[[ok msg] txn]|exn] eqn:E; cbn [finish];
    [reflexivity|].
  apply execute_payment_outcome in E. destruct E as (-> & _). reflexivity.
Qed.

Lemma dispatch_schedule (env : Env) (step : nat) (w : World) (p : PaymentPlan) :
  payment_plan (w_mem w) = Some p ->
  let cents := scheduled_cents p in
  renders cents = true ->
  let r := tool_schedule_payment env (scheduled_date p) cents
                                 (plan_currency p) (w_uuids w) in
  let w1 := mkWorld (w_mem w) (w_clock w) (S (w_uuids w)) (w_stdout w) in
  dispatch env step schedule_remainder w =
  Ok Continue
     (with_mem (set_scheduled true)
        (log_world env ("Observation " ++ str_nat step ++ ": "
                          ++ msg_of (fst r) ++ " (id=" ++ id_of (fst r) ++ ")")
           (log_world env ("Action " ++ str_nat step ++ ": schedule_payment("
                             ++ fmt_2f env cents ++ " " ++ plan_currency p ++ " on "
                             ++ str_date_opt env (scheduled_date p) ++ ")") w1))).
Proof.
  intros Hp cents Hr. cbv zeta. subst cents.
  unfold dispatch, bind, the_plan, ret, call_schedule_payment, render, fmt_cents.
  rewrite Hp, Hr. unfold tool_schedule_payment, fmt_cents. rewrite Hr.
  destruct (_ <=? 0); reflexivity.
Qed.

Lemma dispatch_schedule_overflow (env : Env) (step : nat) (w : World)
    (p : PaymentPlan) :
  payment_plan (w_mem w) = Some p ->
  renders (scheduled_cents p) = false ->
  dispatch env step schedule_remainder w =
  Raised "OverflowError"
         (mkWorld (w_mem w) (w_clock w) (S (w_uuids w)) (w_stdout w)).
Proof.
  intros Hp Hr.
  unfold dispatch, bind, the_plan, ret, call_schedule_payment, render, fmt_cents.
  rewrite Hp, Hr. unfold tool_schedule_payment, fmt_cents. rewrite Hr.
  destruct (_ <=? 0); reflexivity.
Qed.

(** ** The audit log *)

Lemma validation_logged_app (l l' : list string) :
  validation_logged (l ++ l') = validation_logged l || validation_logged l'.
Proof. apply existsb_app. Qed.

(** The planner looks at the audit log only to see whether validation is
    recorded. *)
Lemma next_action_set_audit_log (l : list string) (m : Memory) :
  validation_logged l = validation_logged (audit_log m) ->
  next_action (set_audit_log l m) = next_action m.
Proof. intros H. unfold next_action. cbn. rewrite H. reflexivity. Qed.

(** C7, as the specification states it, fails: in the iteration in which
    the planner answers [None] a single line is appended, the Thought. *)
Lemma done_iteration_logs_one_line :
  let w := mkWorld demo_done_memory 18 2 [] in
  exists w',
    iteration demo_env 7 w = Ok Break w'
    /\ audit_log (w_mem w') =
       (audit_log (w_mem w) ++ ["2026-11-04T07:20:18 | Thought 7: Done."])%list
    /\ List.length (audit_log (w_mem w')) <> (List.length (audit_log (w_mem w)) + 3)%nat.
Proof.
  eexists. split; [reflexivity|]. split; [reflexivity|]. cbn. lia.
Qed.

(** C7, amended.  Every iteration in which the amount to execute or to
    schedule, if there is one, renders runs to its end, and the audit log
    afterwards is the log before followed by new lines only.  When the
    planner chose an action the new lines are exactly three, stamped with
    the next three clock readings: the Thought naming the action, the
    Action naming the invocation and its arguments, and the Observation
    with the handler's message (and identifier).  When the planner answers
    [None] the only new line is the Thought "Done." and the loop is left. *)
Theorem audit_lines_per_iteration (env : Env) (step : nat) (w : World) :
  iteration_renders (w_mem w) = true ->
  exists s w',
    iteration env step w = Ok s w'
    /\ match next_action (w_mem w) with
       | Some a =>
           audit_log (w_mem w') =
           (audit_log (w_mem w) ++
             [ stamped env (w_clock w)
                 ("Thought " ++ str_nat step ++ ": Deciding to '"
                    ++ action_name a ++ "'.");
               stamped env (1 + w_clock w)
                 ("Action " ++ str_nat step ++ ": " ++ invocation_name a
                    ++ "(" ++ key_arguments env (w_mem w) a ++ ")");
               stamped env (2 + w_clock w)
                 ("Observation " ++ str_nat step ++ ": "
                    ++ observation env w a) ])%list
           /\ w_clock w' = (3 + w_clock w)%nat
       | None =>
           s = Break
           /\ audit_log (w_mem w') =
              (audit_log (w_mem w) ++
                [ stamped env (w_clock w)
                    ("Thought " ++ str_nat step ++ ": Done.") ])%list
           /\ w_clock w' = (1 + w_clock w)%nat
       end.
Proof.
  intros Hrend. unfold iteration_renders, amount_formatted in Hrend.
  pose proof (next_action_inv (w_mem w)) as Hinv.
  destruct (next_action (w_mem w)) as [a|] eqn:Hna.
  2:{ eexists _, _. split; [apply iteration_done, Hna|].
      repeat split. }
  rewrite (iteration_action _ _ _ _ Hna).
  unfold key_arguments, observation.
  destruct a.
  - rewrite dispatch_validate. eexists _, _. split; [reflexivity|].
    cbn. rewrite <- !app_assoc. split; reflexivity.
  - rewrite dispatch_kyc. eexists _, _. split; [reflexivity|].
    cbn. rewrite <- !app_assoc. split; reflexivity.
  - rewrite dispatch_aml. eexists _, _. split; [reflexivity|].
    cbn. rewrite <- !app_assoc. split; reflexivity.
  - rewrite dispatch_propose. eexists _, _. split; [reflexivity|].
    cbn. rewrite <- !app_assoc. split; reflexivity.
  - destruct Hinv as (_ & _ & _ & p & Hp & _). rewrite Hp in Hrend.
    erewrite dispatch_execute; [|exact Hp|exact Hrend]. rewrite Hp.
    eexists _, _. split; [reflexivity|].
    cbn.
    destruct (succeeded (returned (tool_execute_payment env (account (w_mem w))
                (immediate_cents p) (plan_currency p) (w_uuids w))));
      cbn; rewrite <- !app_assoc, !append_assoc; split; reflexivity.
  - destruct Hinv as (_ & _ & _ & p & Hp & _). rewrite Hp in Hrend.
    erewrite dispatch_schedule; [|exact Hp|exact Hrend]. rewrite Hp.
    eexists _, _. split; [reflexivity|].
    cbn. rewrite <- !app_assoc. repeat (rewrite append_assoc; cbn).
    split; reflexivity.
Qed.

Lemma audit_lines_per_iteration_demo :
  exists w',
    iteration demo_env 5 (mkWorld demo_planned_memory 12 0 []) = Ok Continue w'
    /\ audit_log (w_mem w') =
       (audit_log demo_planned_memory ++
          [ "2026-11-04T07:20:12 | Thought 5: Deciding to 'execute_immediate'.";
            "2026-11-04T07:20:13 | Action 5: execute_payment(180.00 USD)";
            "2026-11-04T07:20:14 | Observation 5: Executed 180.00 USD. (txn=00000000-0000-4000-8000-000000000000)" ])%list.
Proof.
  destruct (audit_lines_per_iteration demo_env 5
              (mkWorld demo_planned_memory 12 0 []) eq_refl)
    as (s & w' & Hit & Hlog & _).
  exists w'. split; [|exact Hlog].
  rewrite Hit. f_equal.
  assert (H : iteration demo_env 5 (mkWorld demo_planned_memory 12 0 [])
              = Ok Continue
                  (match iteration demo_env 5 (mkWorld demo_planned_memory 12 0 [])
                   with Ok _ w | Raised _ w => w end)) by (vm_compute; reflexivity).
  rewrite Hit in H. injection H as ->. reflexivity.
Defined.

Lemma loop_continue (env : Env) (fuel step : nat) (w w' : World) :
  iteration env (S step) w = Ok Continue w' ->
  loop env (S fuel) step w = loop env fuel (S step) w'.
Proof. intros H. cbn [loop]. rewrite H. reflexivity. Qed.

Lemma loop_break (env : Env) (fuel step : nat) (w w' : World) :
  iteration env (S step) w = Ok Break w' ->
  loop env (S fuel) step w = Finished w'.
Proof. intros H. cbn [loop]. rewrite H. reflexivity. Qed.

Lemma loop_crash (env : Env) (fuel step : nat) (w w' : World) (e : string) :
  iteration env (S step) w = Raised e w' ->
  loop env (S fuel) step w = Crashed e w'.
Proof. intros H. cbn [loop]. rewrite H. reflexivity. Qed.

(** ** When the loop halts *)

(** A failed execution is the insufficient-funds answer, with the account
    and the uuid count untouched. *)
Lemma execute_payment_failed (env : Env) (acct : Account) (cents : Z)
    (cur : string) (uuids : nat) :
  ok_of (returned (tool_execute_payment env acct cents cur uuids)) = Some false ->
  tool_execute_payment env acct cents cur uuids =
  mkEffect (Returns (false, "Execution failed: insufficient funds.", ""))
           acct uuids
  /\ 0 < cents /\ balance_cents acct < cents.
Proof.
  unfold tool_execute_payment, fmt_cents.
  destruct (Z.leb_spec cents 0); [discriminate|].
  destruct (Z.ltb_spec (balance_cents acct) cents).
  - intros _. repeat split; assumption.
  - cbn [returned]. destruct (renders cents); discriminate.
Qed.

(** A positive amount within the balance that renders is executed. *)
Lemma execute_payment_succeeds (env : Env) (acct : Account) (cents : Z)
    (cur : string) (uuids : nat) :
  0 < cents <= balance_cents acct ->
  renders cents = true ->
  tool_execute_payment env acct cents cur uuids =
  mkEffect (Returns (true, "Executed " ++ fmt_2f env cents ++ " " ++ cur ++ ".",
                     uuid4_str env uuids))
           (mkAccount (account_id acct) (balance_cents acct - cents)
                      (daily_limit_cents acct) (spent_today_cents acct + cents))
           (S uuids).
Proof.
  intros H Hr. unfold tool_execute_payment, fmt_cents. rewrite Hr.
  destruct (Z.leb_spec cents 0); [lia|].
  destruct (Z.ltb_spec (balance_cents acct) cents); [lia|]. reflexivity.
Qed.

(** One that does not render is debited all the same, a uuid is drawn,
    and the message is never built. *)
Lemma execute_payment_overflow (env : Env) (acct : Account) (cents : Z)
    (cur : string) (uuids : nat) :
  0 < cents <= balance_cents acct ->
  renders cents = false ->
  tool_execute_payment env acct cents cur uuids =
  mkEffect (Raises "OverflowError")
           (mkAccount (account_id acct) (balance_cents acct - cents)
                      (daily_limit_cents acct) (spent_today_cents acct + cents))
           (S uuids).
Proof.
  intros H Hr. unfold tool_execute_payment, fmt_cents. rewrite Hr.
  destruct (Z.leb_spec cents 0); [lia|].
  destruct (Z.ltb_spec (balance_cents acct) cents); [lia|]. reflexivity.
Qed.

(** An amount within the balance, or not positive, is never refused; when
    it renders, it succeeds. *)
Lemma execute_payment_ok (env : Env) (acct : Account) (cents : Z)
    (cur : string) (uuids : nat) :
  cents <= Z.max 0 (balance_cents acct) ->
  ok_of (returned (tool_execute_payment env acct cents cur uuids)) <> Some false
  /\ (renders cents = true ->
      succeeded (returned (tool_execute_payment env acct cents cur uuids)) = true).
Proof.
  intros H. unfold tool_execute_payment, fmt_cents.
  destruct (Z.leb_spec cents 0); [split; [discriminate|reflexivity]|].
  destruct (Z.ltb_spec (balance_cents acct) cents); [lia|].
  cbn [returned]. destruct (renders cents); split; intros;
    (discriminate || reflexivity).
Qed.

(** A refused execution of an amount that renders: the iteration goes on,
    the memory is as it was but for the three audit lines, and the
    planner's answer is the same. *)
Lemma iteration_failed_execution (env : Env) (step : nat) (w : World)
    (p : PaymentPlan) :
  next_action (w_mem w) = Some execute_immediate ->
  payment_plan (w_mem w) = Some p ->
  renders (immediate_cents p) = true ->
  ok_of (returned (tool_execute_payment env (account (w_mem w))
                     (immediate_cents p) (plan_currency p)
                     (w_uuids w))) = Some false ->
  exists w' l1 l2 l3,
    iteration env step w = Ok Continue w'
    /\ w_mem w' =
       set_audit_log (audit_log (w_mem w) ++ [l1; l2; l3]) (w_mem w)
    /\ l3 = stamped env (2 + w_clock w)
              ("Observation " ++ str_nat step
                 ++ ": Execution failed: insufficient funds. (txn=)")
    /\ w_uuids w' = w_uuids w
    /\ next_action (w_mem w') = Some execute_immediate.
Proof.
  intros Hna Hp Hrend Hfail.
  apply execute_payment_failed in Hfail. destruct Hfail as (Hr & _ & _).
  pose proof (next_action_inv (w_mem w)) as Hinv. rewrite Hna in Hinv.
  destruct Hinv as (Hlog & _).
  rewrite (iteration_action _ _ _ _ Hna).
  erewrite dispatch_execute; [|exact Hp|exact Hrend].
  cbn [w_mem log_world account set_audit_log w_uuids w_clock].
  rewrite Hr. cbn [returned succeeded msg_of id_of acct_after uuids_after].
  eexists _, _, _, _. split; [reflexivity|].
  cbn [w_mem log_world with_mem set_account set_audit_log audit_log account
       invoice vendor_kyc_ok vendor_aml_ok payment_plan executed_amount_cents
       scheduled errors w_uuids w_clock].
  rewrite <- !app_assoc. cbn [app].
  match goal with |- ?A /\ _ => assert (Hm : A) end.
  { destruct (w_mem w); reflexivity. }
  split; [exact Hm|]. split; [reflexivity|]. split; [reflexivity|].
  rewrite Hm, <- Hna. apply next_action_set_audit_log.
  cbn [audit_log]. rewrite validation_logged_app, Hlog. reflexivity.
Qed.

Lemma execute_payment_refused (env : Env) (acct : Account) (cents : Z)
    (cur : string) (uuids : nat) :
  0 < cents -> balance_cents acct < cents ->
  ok_of (returned (tool_execute_payment env acct cents cur uuids)) = Some false.
Proof.
  intros. unfold tool_execute_payment.
  destruct (Z.leb_spec cents 0); [lia|].
  destruct (Z.ltb_spec (balance_cents acct) cents); [reflexivity|lia].
Qed.

(** With a plan the balance does not cover, the loop never ends: whatever
    the fuel, it is used up. *)
Lemma uncovered_plan_loops_forever (env : Env) (p : PaymentPlan) (fuel : nat) :
  forall (step : nat) (w : World),
    next_action (w_mem w) = Some execute_immediate ->
    payment_plan (w_mem w) = Some p ->
    renders (immediate_cents p) = true ->
    0 < immediate_cents p ->
    balance_cents (account (w_mem w)) < immediate_cents p ->
    exists w', loop env fuel step w = OutOfFuel w'.
Proof.
  induction fuel as [|fuel IH]; intros step w Hna Hp Hrend Hpos Hbal;
    [eexists; reflexivity|].
  pose proof (execute_payment_refused env (account (w_mem w)) (immediate_cents p)
                (plan_currency p) (w_uuids w) Hpos Hbal) as Hfail.
  destruct (iteration_failed_execution env (S step) w p Hna Hp Hrend Hfail)
    as (w' & l1 & l2 & l3 & Hit & Hm & _ & _ & Hna').
  rewrite (loop_continue _ _ _ _ _ Hit).
  apply IH;
    [exact Hna' | rewrite Hm; exact Hp | exact Hrend | exact Hpos
    | rewrite Hm; exact Hbal].
Qed.

(** The demo invoice with a plan of 180.00 now against a balance of 1.00:
    a hundred iterations later the loop is still running. *)
Example uncovered_demo_still_running :
  exists w', loop demo_env 100 0 (mkWorld demo_uncovered_memory 3 0 [])
             = OutOfFuel w'.
Proof.
  apply (uncovered_plan_loops_forever demo_env
           (mkPaymentPlan 25000 "USD" 18000 7000 (Some 739925)));
    (reflexivity || (cbn; lia)).
Qed.


(** C4.  The loop is also left where the claim has it go on.  On an
    invoice of [10^311] cents, valid, from a vendor that passes KYC and
    AML, and an account that holds twice as much, four iterations go by
    (validate, KYC, AML, propose) and leave the planner's answer
    [execute_immediate]; none of the four halting conditions holds.  The
    fifth iteration ends the run, with whatever fuel is left, in the
    [OverflowError] of [cents/100]: the account is debited, the amount is
    not recorded as executed, and the planner's answer on the memory left
    behind is still [execute_immediate]. *)
Theorem huge_invoice_run_crashes :
  let w0 := fresh_world huge_invoice rich_account 0 0 [] in
  exists w4 w',
    run_episode demo_env 4 w0 = OutOfFuel w4
    /\ next_action (w_mem w4) = Some execute_immediate
    /\ ~ halts_here demo_env (w_mem w4)
    /\ iteration demo_env 5 w4 = Raised "OverflowError" w'
    /\ (forall n, run_episode demo_env (5 + n) w0 = Crashed "OverflowError" w')
    /\ account (w_mem w')
       = mkAccount "OPERATING-USD" (10 ^ 311) (2 * 10 ^ 311) (10 ^ 311)
    /\ executed_amount_cents (w_mem w') = 0
    /\ next_action (w_mem w') = Some execute_immediate
    /\ List.length (audit_log (w_mem w')) = 13%nat.
Proof.
  cbv zeta.
  exists (world_of (run_episode demo_env 4
                      (fresh_world huge_invoice rich_account 0 0 []))),
         (world_of (run_episode demo_env 5
                      (fresh_world huge_invoice rich_account 0 0 []))).
  split; [vm_compute; reflexivity|].
  split; [vm_compute; reflexivity|].
  split.
  { unfold halts_here.
    replace (next_action _) with (Some execute_immediate)
      by (vm_compute; reflexivity).
    intros [H|[[H _]|[[H _]|[H _]]]]; discriminate H. }
  split; [vm_compute; reflexivity|].
  split; [intros n; vm_compute; reflexivity|].
  repeat split; vm_compute; reflexivity.
Qed.

(** ** Termination of fresh runs *)

Ltac mem_fields :=
  cbn [w_mem w_clock w_uuids w_stdout log_world with_mem
       set_account set_vendor_kyc_ok set_vendor_aml_ok set_payment_plan
       set_executed_amount_cents set_scheduled set_audit_log
       invoice account vendor_kyc_ok vendor_aml_ok payment_plan
       executed_amount_cents scheduled errors audit_log is_set].

(** A successful validation leaves its mark in the audit log. *)
Lemma validated_line (ts : string) (n : nat) :
  contains "Invoice validated."
    (ts ++ " | " ++ "Observation " ++ str_nat n ++ ": " ++ "Invoice validated.")
  = true.
Proof.
  apply contains_app_l.
  apply (contains_app_l _ " | Observation ").
  apply contains_app_l.
  apply (contains_app_l _ ": ").
  apply contains_refl.
Qed.

Lemma validate_invoice_ok_msg (env : Env) (mem : Memory) :
  fst (tool_validate_invoice env mem) = true ->
  snd (tool_validate_invoice env mem) = "Invoice validated.".
Proof.
  unfold tool_validate_invoice.
  destruct (_ <=? 0); [discriminate|].
  destruct (negb _); [discriminate|].
  destruct (_ <? _); [discriminate|]. reflexivity.
Qed.

Lemma validation_logged_snoc (l : list string) (x : string) :
  validation_logged (l ++ [x]) =
  validation_logged l || contains "Invoice validated." x.
Proof.
  rewrite validation_logged_app. unfold validation_logged at 2. cbn.
  now rewrite orb_false_r.
Qed.

(** Amounts no larger in absolute value than one that renders render. *)
Lemma renders_le (a b : Z) :
  Z.abs a <= Z.abs b -> renders b = true -> renders a = true.
Proof. unfold renders. rewrite !Z.ltb_lt. lia. Qed.

Lemma renders_0 : renders 0 = true.
Proof. reflexivity. Qed.

(** The parts of a proposed plan render when the invoice amount does. *)
Lemma propose_plan_renders (env : Env) (m : Memory) :
  renders (amount (invoice m)) = true ->
  renders (immediate_cents (snd (tool_propose_plan env m))) = true
  /\ renders (scheduled_cents (snd (tool_propose_plan env m))) = true.
Proof.
  intros H. unfold tool_propose_plan.
  destruct (Z.leb_spec
              (Z.min (Z.min (amount (invoice m)) (balance_cents (account m)))
                     (Z.max 0 (daily_limit_cents (account m)
                               - spent_today_cents (account m)))) 0);
    cbn [snd immediate_cents scheduled_cents]; [auto using renders_0|].
  destruct (Z.gtb_spec
              (amount (invoice m)
               - Z.min (Z.min (amount (invoice m)) (balance_cents (account m)))
                       (Z.max 0 (daily_limit_cents (account m)
                                 - spent_today_cents (account m)))) 0);
    cbn [snd immediate_cents scheduled_cents]; [|auto using renders_0].
  split; (eapply renders_le; [|exact H]); lia.
Qed.

Lemma amounts_render_iteration (m : Memory) :
  amounts_render m -> iteration_renders m = true.
Proof.
  unfold amounts_render, iteration_renders, amount_formatted.
  destruct (next_action m) as [[]|]; try reflexivity;
    destruct (payment_plan m); try reflexivity; intros [? ?]; assumption.
Qed.

(** Every iteration on a covered memory either ends in the
    [OverflowError] of an amount that does not render, or returns; when it
    does not leave the loop, it brings the memory one step closer to
    [Done] and keeps the plan covered. *)
Lemma iteration_progress (env : Env) (step : nat) (w : World) :
  plan_covered (w_mem w) ->
  (iteration_renders (w_mem w) = false
   /\ exists w', iteration env step w = Raised "OverflowError" w')
  \/ (iteration_renders (w_mem w) = true
      /\ exists s w',
        iteration env step w = Ok s w'
        /\ (s = Continue ->
            plan_covered (w_mem w')
            /\ (pending (w_mem w') < pending (w_mem w))%nat
            /\ (0 <= executed_amount_cents (w_mem w) ->
                0 <= executed_amount_cents (w_mem w'))
            /\ (amounts_render (w_mem w) -> amounts_render (w_mem w')))).
Proof.
  intros Hcov.
  pose proof (next_action_inv (w_mem w)) as Hinv.
  unfold iteration_renders, amount_formatted.
  destruct (next_action (w_mem w)) as [a|] eqn:Hna.
  2:{ right. split; [reflexivity|].
      eexists _, _. split; [apply iteration_done, Hna|]. discriminate. }
  rewrite (iteration_action _ _ _ _ Hna).
  destruct a.
  - right. split; [reflexivity|].
    rewrite dispatch_validate. eexists _, _. split; [reflexivity|].
    change (tool_validate_invoice env (w_mem (log_world env _ w)))
      with (tool_validate_invoice env (w_mem w)).
    pose proof (validate_invoice_ok_msg env (w_mem w)) as Hmsg.
    destruct (fst (tool_validate_invoice env (w_mem w))); [|discriminate].
    intros _. rewrite (Hmsg eq_refl).
    split; [|split; [|split; mem_fields; auto]].
    + unfold plan_covered in *. mem_fields. exact Hcov.
    + unfold pending. mem_fields.
      rewrite !validation_logged_snoc, Hinv, validated_line.
      rewrite orb_true_r. cbn. lia.
  - destruct Hinv as (Hlog & Hk).
    right. split; [reflexivity|].
    rewrite dispatch_kyc. eexists _, _. split; [reflexivity|].
    change (vendor_id (invoice (w_mem (log_world env _ w))))
      with (vendor_id (invoice (w_mem w))).
    destruct (fst (tool_run_kyc (vendor_id (invoice (w_mem w)))));
      [|discriminate].
    intros _. split; [|split; [|split; mem_fields; auto]].
    + unfold plan_covered in *. mem_fields. exact Hcov.
    + unfold pending. mem_fields.
      rewrite !validation_logged_snoc, Hlog, Hk. cbn. lia.
  - destruct Hinv as (Hlog & Hk & Ha).
    right. split; [reflexivity|].
    rewrite dispatch_aml. eexists _, _. split; [reflexivity|].
    change (vendor_id (invoice (w_mem (log_world env _ w))))
      with (vendor_id (invoice (w_mem w))).
    destruct (fst (tool_run_aml_screening (vendor_id (invoice (w_mem w)))));
      [|discriminate].
    intros _. split; [|split; [|split; mem_fields; auto]].
    + unfold plan_covered in *. mem_fields. exact Hcov.
    + unfold pending. mem_fields.
      rewrite !validation_logged_snoc, Hlog, Hk, Ha. cbn. lia.
  - destruct Hinv as (Hlog & Hk & Ha & Hp).
    right. split; [reflexivity|].
    rewrite dispatch_propose. eexists _, _. split; [reflexivity|].
    change (tool_propose_plan env (w_mem (log_world env _ w)))
      with (tool_propose_plan env (w_mem w)).
    intros _. split; [|split; [|split; [mem_fields; auto|]]].
    + unfold plan_covered. mem_fields.
      rewrite propose_plan_immediate. lia.
    + unfold pending. mem_fields.
      rewrite !validation_logged_snoc, Hlog, Hk, Ha, Hp. cbn.
      destruct (_ <? _); destruct (negb _ && _); cbn; lia.
    + unfold amounts_render. mem_fields. rewrite Hp.
      apply propose_plan_renders.
  - destruct Hinv as (Hlog & Hk & Ha & p & Hp & Hlt).
    unfold plan_covered in Hcov. rewrite Hp in Hcov. specialize (Hcov Hlt).
    rewrite Hp.
    destruct (renders (immediate_cents p)) eqn:Hrend.
    2:{ left. split; [reflexivity|].
        erewrite dispatch_execute_overflow; [|exact Hp|exact Hrend]. eauto. }
    right. split; [reflexivity|].
    erewrite dispatch_execute; [|exact Hp|exact Hrend].
    mem_fields.
    destruct (execute_payment_ok env (account (w_mem w)) (immediate_cents p)
                (plan_currency p) (w_uuids w) Hcov) as [_ Hok].
    rewrite (Hok Hrend).
    eexists _, _. split; [reflexivity|].
    intros _. split; [|split; [|split; [mem_fields; lia|]]].
    + unfold plan_covered. mem_fields. rewrite Hp. lia.
    + unfold pending. mem_fields.
      rewrite !validation_logged_snoc, Hlog, Hk, Ha, Hp. cbn.
      rewrite Z.ltb_irrefl.
      destruct (Z.ltb_spec (executed_amount_cents (w_mem w))
                           (immediate_cents p)); [|lia].
      destruct (negb _ && _); cbn; lia.
    + unfold amounts_render. mem_fields. rewrite Hp. auto.
  - destruct Hinv as (Hlog & Hk & Ha & p & Hp & Hle & Hs & Hpos).
    rewrite Hp.
    destruct (renders (scheduled_cents p)) eqn:Hrend.
    2:{ left. split; [reflexivity|].
        erewrite dispatch_schedule_overflow; [|exact Hp|exact Hrend]. eauto. }
    right. split; [reflexivity|].
    erewrite dispatch_schedule; [|exact Hp|exact Hrend].
    eexists _, _. split; [reflexivity|].
    intros _. split; [|split; [|split; mem_fields; auto]].
    + unfold plan_covered in *. mem_fields. exact Hcov.
    + unfold pending. mem_fields.
      rewrite !validation_logged_snoc, Hlog, Hk, Ha, Hp, Hs. cbn.
      destruct (Z.gtb_spec (scheduled_cents p) 0); [|lia].
      destruct (_ <? _); cbn; lia.
Qed.

(** Enough fuel for the pending steps and the last look of the planner
    takes a covered memory out of the loop: by [break], or by the
    [OverflowError] of an amount that does not render. *)
Lemma loop_terminates (env : Env) (n : nat) :
  forall (step : nat) (w : World),
    plan_covered (w_mem w) ->
    (pending (w_mem w) <= n)%nat ->
    ((exists w', loop env (S n) step w = Finished w')
     \/ (exists w', loop env (S n) step w = Crashed "OverflowError" w'))
    /\ (amounts_render (w_mem w) ->
        exists w', loop env (S n) step w = Finished w').
Proof.
  induction n as [|n IH]; intros step w Hcov Hn;
    (destruct (iteration_progress env (S step) w Hcov)
      as [(Hnr & w' & Hit)|(_ & s & w' & Hit & Hcont)];
     cbn [loop]; rewrite Hit;
     [split; [right; eauto|];
      intros Hr; apply amounts_render_iteration in Hr; congruence|]);
    (destruct s; [|split; [left|intros _]; eexists; reflexivity]);
    destruct (Hcont eq_refl) as (Hcov' & Hlt & _ & Hr').
  - lia.
  - destruct (IH (S step) w' Hcov' ltac:(lia)) as [H1 H2].
    split; [exact H1|]. intros Hr. apply H2, Hr', Hr.
Qed.

Lemma reachable_covered (env : Env) (w0 : World) (k : nat) (w : World) :
  plan_covered (w_mem w0) ->
  0 <= executed_amount_cents (w_mem w0) ->
  reachable env w0 k w ->
  plan_covered (w_mem w) /\ 0 <= executed_amount_cents (w_mem w).
Proof.
  intros H0 E0 Hr. induction Hr as [|k w w' Hr [IHc IHe] Hit]; [auto|].
  destruct (iteration_progress env (S k) w IHc)
    as [(_ & w1 & Hit')|(_ & s & w1 & Hit' & Hcont)];
    rewrite Hit in Hit'; [discriminate|].
  injection Hit' as <- <-.
  destruct (Hcont eq_refl) as (? & _ & ? & _). auto.
Qed.

(** C9.  A run started on a fresh memory, whatever the invoice and the
    account, is over within seven iterations: it leaves the loop by
    [break], or, when an amount is too large to be rendered, by the
    [OverflowError] of the f-string; when the invoice amount renders it
    leaves by [break].  At every iteration of such a run in which
    [execute_immediate] is dispatched the plan's immediate part is
    positive and within the balance, so the insufficient-funds branch of
    [tool_execute_payment] is never taken: the tool does not return a
    failure, and returns success whenever the amount renders. *)
Theorem fresh_run_terminates (env : Env) (inv : Invoice) (acct : Account)
    (clk ids : nat) (out : list string) :
  let w0 := fresh_world inv acct clk ids out in
  ((exists w', run_episode env 7 w0 = Finished w')
   \/ (exists w', run_episode env 7 w0 = Crashed "OverflowError" w'))
  /\ (renders (amount inv) = true ->
      exists w', run_episode env 7 w0 = Finished w')
  /\ (forall k w p,
        reachable env w0 k w ->
        next_action (w_mem w) = Some execute_immediate ->
        payment_plan (w_mem w) = Some p ->
        let r := tool_execute_payment env (account (w_mem w))
                   (immediate_cents p) (plan_currency p) (w_uuids w) in
        0 < immediate_cents p <= balance_cents (account (w_mem w))
        /\ ok_of (returned r) <> Some false
        /\ (renders (immediate_cents p) = true ->
            ok_of (returned r) = Some true)).
Proof.
  cbv zeta.
  assert (Hp0 : (pending (w_mem (fresh_world inv acct clk ids out)) <= 6)%nat).
  { unfold pending, validation_logged. cbn. lia. }
  destruct (loop_terminates env 6 0 (fresh_world inv acct clk ids out) I Hp0)
    as [H1 H2].
  split; [exact H1|]. split; [exact H2|].
  intros k w p Hr Hna Hp.
  destruct (reachable_covered env (fresh_world inv acct clk ids out) k w
              I (Z.le_refl 0) Hr) as [Hcov He].
  pose proof (next_action_inv (w_mem w)) as Hinv. rewrite Hna in Hinv.
  destruct Hinv as (_ & _ & _ & p' & Hp' & Hlt).
  rewrite Hp in Hp'. injection Hp' as <-.
  unfold plan_covered in Hcov. rewrite Hp in Hcov. specialize (Hcov Hlt).
  split; [lia|].
  destruct (execute_payment_ok env (account (w_mem w)) (immediate_cents p)
              (plan_currency p) (w_uuids w) Hcov) as [Hnf Hok].
  split; [exact Hnf|]. intros Hrend. specialize (Hok Hrend).
  destruct (returned _) as [[[ok msg] txn]|exn]; cbn in *; congruence.
Qed.

(** ** Running the loop *)

(** The worlds [reachable] collects are the ones [loop] passes through. *)
Lemma reachable_loop (env : Env) (w0 : World) (k : nat) (w : World) :
  reachable env w0 k w ->
  forall fuel, loop env (k + fuel) 0 w0 = loop env fuel k w.
Proof.
  induction 1 as [|k w w' _ IH Hit]; intros fuel; [reflexivity|].
  rewrite <- (loop_continue env fuel k w w' Hit), <- IH.
  f_equal. lia.
Qed.

(** Once the successful validation is in the audit log, the planner's
    answer on a memory spelled out field by field is a matter of
    evaluation. *)
Ltac planner_after_validation :=
  unfold next_action;
  repeat match goal with w := _ : World |- _ => subst w end;
  mem_fields;
  rewrite !validation_logged_snoc, validated_line, orb_true_r;
  reflexivity.

(** C5.  Scenario A: an invoice of 250.00 USD due in five days, an account
    holding 180.00 with a daily limit of 500.00 and nothing spent, and a
    vendor that passes KYC and AML.  The proposed plan is the split
    180.00 now, 70.00 tomorrow; the run is validate, KYC, AML, propose,
    execute 180.00, schedule 70.00, Done, seven iterations in all, and
    leaves the account with balance 0 and 180.00 spent today. *)
Theorem scenario_A (env : Env) (inv_id vendor note acct_id : string)
    (clk ids : nat) (out : list string) :
  endswith vendor "X" = false ->
  vendor <> "OFAC123" -> vendor <> "AML999" ->
  let inv := mkInvoice inv_id vendor 25000 "USD" (today env + 5) note in
  let acct := mkAccount acct_id 18000 50000 0 in
  let plan := mkPaymentPlan 25000 "USD" 18000 7000 (Some (today env + 1)) in
  let w0 := fresh_world inv acct clk ids out in
  tool_propose_plan env (new_Memory inv acct)
  = (true, "Proposed split: partial now, remainder tomorrow.", plan)
  /\ exists w',
       run_episode env 7 w0 = Finished w'
       /\ (exists w6, run_episode env 6 w0 = OutOfFuel w6)
       /\ account (w_mem w') = mkAccount acct_id 0 50000 18000
       /\ payment_plan (w_mem w') = Some plan
       /\ executed_amount_cents (w_mem w') = 18000
       /\ scheduled (w_mem w') = true
       /\ w_uuids w' = (2 + ids)%nat
       /\ audit_log (w_mem w') =
          [ stamped env clk "Thought 1: Deciding to 'validate_invoice'.";
            stamped env (1 + clk) "Action 1: validate_invoice()";
            stamped env (2 + clk) "Observation 1: Invoice validated.";
            stamped env (3 + clk) "Thought 2: Deciding to 'run_kyc'.";
            stamped env (4 + clk) ("Action 2: run_kyc(" ++ vendor ++ ")");
            stamped env (5 + clk) "Observation 2: KYC passed.";
            stamped env (6 + clk) "Thought 3: Deciding to 'run_aml'.";
            stamped env (7 + clk) ("Action 3: run_aml(" ++ vendor ++ ")");
            stamped env (8 + clk) "Observation 3: AML screening passed.";
            stamped env (9 + clk) "Thought 4: Deciding to 'propose_plan'.";
            stamped env (10 + clk) "Action 4: propose_plan()";
            stamped env (11 + clk)
              "Observation 4: Proposed split: partial now, remainder tomorrow.";
            stamped env (12 + clk) "Thought 5: Deciding to 'execute_immediate'.";
            stamped env (13 + clk)
              ("Action 5: execute_payment(" ++ fmt_2f env 18000 ++ " USD)");
            stamped env (14 + clk)
              ("Observation 5: Executed " ++ fmt_2f env 18000 ++ " USD. (txn="
                 ++ uuid4_str env ids ++ ")");
            stamped env (15 + clk) "Thought 6: Deciding to 'schedule_remainder'.";
            stamped env (16 + clk)
              ("Action 6: schedule_payment(" ++ fmt_2f env 7000 ++ " USD on "
                 ++ date_str env (today env + 1) ++ ")");
            stamped env (17 + clk)
              ("Observation 6: Scheduled " ++ fmt_2f env 7000 ++ " USD for "
                 ++ date_str env (today env + 1) ++ ". (id=SCH-"
                 ++ uuid4_str env (S ids) ++ ")");
            stamped env (18 + clk) "Thought 7: Done." ].
Proof.
  intros Hkyc Hofac Haml. cbv zeta.
  assert (Hv : forall m,
             invoice m = mkInvoice inv_id vendor 25000 "USD" (today env + 5) note ->
             tool_validate_invoice env m = (true, "Invoice validated.")).
  { intros m Hm. unfold tool_validate_invoice. rewrite Hm. cbn.
    destruct (Z.ltb_spec (today env + 5) (today env - 30)); [lia|reflexivity]. }
  assert (Hk : tool_run_kyc vendor = (true, "KYC passed.")).
  { unfold tool_run_kyc. rewrite Hkyc. reflexivity. }
  assert (Ha : tool_run_aml_screening vendor = (true, "AML screening passed.")).
  { unfold tool_run_aml_screening.
    destruct (String.eqb_spec vendor "OFAC123"); [contradiction|].
    destruct (String.eqb_spec vendor "AML999"); [contradiction|]. reflexivity. }
  split; [reflexivity|].
  unfold run_episode, fresh_world, new_Memory.
  match goal with |- context [loop env 7 0 ?w] => set (w0 := w) end.
  pose proof (reach_start env w0) as R.
  (* 1: validate_invoice *)
  eassert (H : iteration env 1 w0 = Ok Continue _).
  { rewrite (iteration_action env 1 w0 validate_invoice) by reflexivity.
    rewrite dispatch_validate. erewrite Hv by reflexivity.
    cbn [fst snd]. reflexivity. }
  apply (reach_next env w0 _ _ _ R) in H. clear R. rename H into R.
  match type of R with reachable _ _ _ ?w => set (w1 := w) in * end.
  (* 2: run_kyc *)
  assert (N : next_action (w_mem w1) = Some run_kyc) by planner_after_validation.
  eassert (H : iteration env 2 w1 = Ok Continue _).
  { rewrite (iteration_action env 2 w1 run_kyc N).
    rewrite dispatch_kyc. cbv zeta.
    change (vendor_id (invoice (w_mem (log_world env _ w1)))) with vendor.
    rewrite Hk. cbn [fst snd]. reflexivity. }
  apply (reach_next env w0 _ _ _ R) in H. clear R N. rename H into R.
  match type of R with reachable _ _ _ ?w => set (w2 := w) in * end.
  (* 3: run_aml *)
  assert (N : next_action (w_mem w2) = Some run_aml) by planner_after_validation.
  eassert (H : iteration env 3 w2 = Ok Continue _).
  { rewrite (iteration_action env 3 w2 run_aml N).
    rewrite dispatch_aml. cbv zeta.
    change (vendor_id (invoice (w_mem (log_world env _ w2)))) with vendor.
    rewrite Ha. cbn [fst snd]. reflexivity. }
  apply (reach_next env w0 _ _ _ R) in H. clear R N. rename H into R.
  match type of R with reachable _ _ _ ?w => set (w3 := w) in * end.
  (* 4: propose_plan *)
  assert (N : next_action (w_mem w3) = Some propose_plan)
    by planner_after_validation.
  eassert (H : iteration env 4 w3 = Ok Continue _).
  { rewrite (iteration_action env 4 w3 propose_plan N).
    rewrite dispatch_propose. cbv zeta.
    change (tool_propose_plan env (w_mem (log_world env _ w3)))
      with (true, "Proposed split: partial now, remainder tomorrow.",
            mkPaymentPlan 25000 "USD" 18000 7000 (Some (today env + 1))).
    cbn [fst snd]. reflexivity. }
  apply (reach_next env w0 _ _ _ R) in H. clear R N. rename H into R.
  match type of R with reachable _ _ _ ?w => set (w4 := w) in * end.
  (* 5: execute_immediate *)
  assert (N : next_action (w_mem w4) = Some execute_immediate)
    by planner_after_validation.
  eassert (H : iteration env 5 w4 = Ok Continue _).
  { rewrite (iteration_action env 5 w4 execute_immediate N).
    erewrite dispatch_execute; [|reflexivity|reflexivity]. cbv zeta.
    subst w4 w3 w2 w1 w0. mem_fields.
    rewrite execute_payment_succeeds; [|cbn; lia|reflexivity].
    cbn [returned succeeded msg_of id_of acct_after uuids_after]. reflexivity. }
  apply (reach_next env w0 _ _ _ R) in H. clear R N. rename H into R.
  match type of R with reachable _ _ _ ?w => set (w5 := w) in * end.
  (* 6: schedule_remainder *)
  assert (N : next_action (w_mem w5) = Some schedule_remainder)
    by planner_after_validation.
  eassert (H : iteration env 6 w5 = Ok Continue _).
  { rewrite (iteration_action env 6 w5 schedule_remainder N).
    erewrite dispatch_schedule; [|reflexivity|reflexivity]. cbv zeta.
    unfold tool_schedule_payment, fmt_cents.
    replace (renders (scheduled_cents (mkPaymentPlan 25000 "USD" 18000 7000
                                         (Some (today env + 1)))))
      with true by reflexivity.
    cbn [scheduled_cents scheduled_date plan_currency Z.leb Z.compare
         fst snd msg_of id_of str_date_opt]. reflexivity. }
  apply (reach_next env w0 _ _ _ R) in H. clear R N. rename H into R.
  match type of R with reachable _ _ _ ?w => set (w6 := w) in * end.
  (* 7: Done *)
  assert (N : next_action (w_mem w6) = None) by planner_after_validation.
  pose proof (iteration_done env 7 w6 N) as H.
  pose proof (reachable_loop env w0 6 w6 R) as L.
  eexists. split.
  { change (loop env 7 0 w0) with (loop env (6 + 1) 0 w0).
    rewrite L. apply loop_break. exact H. }
  split.
  { exists w6. exact (L 0%nat). }
  clear R L H N Hv Hk Ha.
  subst w6 w5 w4 w3 w2 w1 w0. mem_fields.
  repeat split; try reflexivity.
  unfold stamped. cbn.
  repeat (rewrite append_assoc; cbn).
  reflexivity.
Qed.

(** Scenario A with the very invoice, account and vendor of the demo. *)
Lemma scenario_A_demo :
  exists w',
    run_episode demo_env 7 demo_world = Finished w'
    /\ account (w_mem w') = mkAccount "OPERATING-USD" 0 50000 18000.
Proof.
  destruct (scenario_A demo_env "INV-1001" "ACME_CO" "Monthly hosting fee"
              "OPERATING-USD" 0 0 [] eq_refl
              ltac:(discriminate) ltac:(discriminate))
    as (_ & w' & Hrun & _ & Hacct & _).
  exists w'. split; assumption.
Defined.

(* ================================================================== *)
(** * Further properties of the tools *)

(** ** Vendor screening *)

Lemma endswith_refl (s : string) : endswith s s = true.
Proof. destruct s; cbn [endswith]; rewrite String.eqb_refl; reflexivity. Qed.

(** [endswith] is the suffix relation. *)
Lemma endswith_spec (s suffix : string) :
  endswith s suffix = true <-> exists pre, s = pre ++ suffix.
Proof.
  split.
  - induction s as [|c s IH]; cbn [endswith]; intros H.
    + rewrite orb_false_r in H. apply String.eqb_eq in H. now exists "".
    + apply orb_true_iff in H. destruct H as [H|H].
      * apply String.eqb_eq in H. now exists "".
      * destruct (IH H) as [pre ->]. now exists (String c pre).
  - intros [pre ->]. induction pre as [|c pre IH]; cbn [append].
    + apply endswith_refl.
    + cbn [endswith]. rewrite IH. apply orb_true_r.
Qed.

(** The KYC stand-in refuses exactly the vendor identifiers that end in the
    letter X, the AML stand-in exactly the two identifiers of its denylist
    (as they are written, capitals included); each answers with the message
    of its verdict. *)
Theorem vendor_screening_rules (vendor : string) :
  (tool_run_kyc vendor = (false, "KYC failed.")
   <-> exists pre, vendor = pre ++ "X")
  /\ (tool_run_kyc vendor = (true, "KYC passed.")
      <-> ~ exists pre, vendor = pre ++ "X")
  /\ (tool_run_aml_screening vendor = (false, "AML screening flagged vendor.")
      <-> vendor = "OFAC123" \/ vendor = "AML999")
  /\ (tool_run_aml_screening vendor = (true, "AML screening passed.")
      <-> vendor <> "OFAC123" /\ vendor <> "AML999").
Proof.
  unfold tool_run_kyc, tool_run_aml_screening.
  pose proof (endswith_spec vendor "X") as HX.
  destruct (endswith vendor "X").
  - destruct (String.eqb_spec vendor "OFAC123"), (String.eqb_spec vendor "AML999");
      cbn; repeat split; intros; try discriminate; try tauto;
      try (apply HX; reflexivity); try (exfalso; intuition congruence).
  - assert (~ exists pre, vendor = pre ++ "X") as Hn
        by (intros H; apply HX in H; discriminate).
    destruct (String.eqb_spec vendor "OFAC123"), (String.eqb_spec vendor "AML999");
      cbn; repeat split; intros; try discriminate; try tauto;
      try (exfalso; intuition congruence).
Qed.

(** ** The two checks and the execution *)

(** [tool_execute_payment] refuses exactly the positive amounts
    [tool_check_balance] refuses.  An amount [>= 0] that passes
    [tool_check_balance] and [tool_check_daily_limit] leaves the account
    with a balance [>= 0] and [spent_today] within the limit; the call
    returns success when the amount renders, and raises [OverflowError],
    the account already debited, when it does not. *)
Theorem checks_guard_execution (env : Env) (acct : Account) (cents : Z)
    (cur : string) (uuids : nat) :
  let r := tool_execute_payment env acct cents cur uuids in
  (ok_of (returned r) = Some false
   <-> 0 < cents /\ fst (tool_check_balance acct cents) = false)
  /\ (0 <= cents ->
      fst (tool_check_balance acct cents) = true ->
      fst (tool_check_daily_limit acct cents) = true ->
      0 <= balance_cents (acct_after r)
      /\ spent_today_cents (acct_after r) <= daily_limit_cents (acct_after r)
      /\ (renders cents = true -> ok_of (returned r) = Some true)
      /\ (renders cents = false ->
          returned r = Raises "OverflowError"
          /\ balance_cents (acct_after r) = balance_cents acct - cents)).
Proof.
  cbv zeta.
  unfold tool_execute_payment, tool_check_balance, tool_check_daily_limit,
    fmt_cents.
  cbn [fst].
  destruct (Z.leb_spec cents 0) as [H0|H0];
    destruct (Z.geb_spec (balance_cents acct) cents) as [Hb|Hb];
    destruct (Z.leb_spec (spent_today_cents acct + cents) (daily_limit_cents acct))
      as [Hl|Hl];
    try (destruct (Z.ltb_spec (balance_cents acct) cents) as [Hc|Hc]);
    try lia;
    destruct (renders cents) eqn:Hr;
    cbn; repeat split; intros; try discriminate; try lia;
    try (destruct H; (discriminate || lia)).
  all: assert (cents = 0) as -> by lia; discriminate.
Qed.

(** Whatever the invoice and the account, a positive immediate part of the
    proposed plan passes both [tool_check_balance] and
    [tool_check_daily_limit] on that account, although [tool_propose_plan]
    calls neither. *)
Theorem proposed_immediate_passes_checks (env : Env) (mem : Memory) :
  let plan := snd (tool_propose_plan env mem) in
  0 < immediate_cents plan ->
  tool_check_balance (account mem) (immediate_cents plan)
  = (true, "Sufficient balance.")
  /\ tool_check_daily_limit (account mem) (immediate_cents plan)
     = (true, "Within daily limit.").
Proof.
  cbv zeta. rewrite propose_plan_immediate. intros H.
  unfold tool_check_balance, tool_check_daily_limit.
  match goal with |- context [?a >=? ?b] => destruct (Z.geb_spec a b); [|lia] end.
  match goal with |- context [?a <=? ?b] => destruct (Z.leb_spec a b); [|lia] end.
  split; reflexivity.
Qed.

Lemma proposed_immediate_passes_checks_demo :
  tool_check_balance demo_account 18000 = (true, "Sufficient balance.")
  /\ tool_check_daily_limit demo_account 18000 = (true, "Within daily limit.").
Proof.
  apply (proposed_immediate_passes_checks demo_env
           (new_Memory demo_invoice demo_account)).
  reflexivity.
Defined.

(* ================================================================== *)
(** * Whole runs *)

(** ** One iteration, in one statement *)

Lemma stamp_from_app (env : Env) (a b : list string) :
  forall k, stamp_from env k (a ++ b)
            = (stamp_from env k a ++ stamp_from env (List.length a + k) b)%list.
Proof.
  induction a as [|x a IH]; intros k; cbn; [reflexivity|].
  rewrite IH. do 3 f_equal. lia.
Qed.

Lemma stamp_from_length (env : Env) (msgs : list string) :
  forall k, List.length (stamp_from env k msgs) = List.length msgs.
Proof. induction msgs as [|x l IH]; intros k; cbn; [|rewrite IH]; reflexivity. Qed.

Lemma world_after_finish {A} (o : Outcome A) (w : World) :
  world_after (finish o w) = w.
Proof. destruct o; reflexivity. Qed.

Lemma finish_ok {A} (o : Outcome A) (w : World) (a : A) (w' : World) :
  finish o w = Ok a w' -> o = Returns a /\ w = w'.
Proof. destruct o; cbn; intros H; [injection H as <- <-; auto|discriminate]. Qed.

Ltac effect_case :=
  eexists _, _; split; [cbn [fst snd finish]; reflexivity|];
  split; [cbn [w_stdout log_world with_mem]; rewrite <- ?app_assoc; reflexivity|];
  split; [reflexivity|]; split; [reflexivity|];
  split; [mem_fields; rewrite <- ?app_assoc; reflexivity|].

(** Every iteration ends as [iteration_effect] says, and what it leaves is
    the memory and the uuid count of [iteration_effect], with the
    messages it printed stamped onto the audit log.  The only exception is
    the [OverflowError] of an amount that does not render. *)
Lemma iteration_effect_sound (env : Env) (step : nat) (w : World) :
  exists w' msgs,
    iteration env step w = finish (snd (fst (iteration_effect env w))) w'
    /\ w_stdout w' = (w_stdout w ++ msgs)%list
    /\ w_clock w' = (List.length msgs + w_clock w)%nat
    /\ w_uuids w' = snd (iteration_effect env w)
    /\ w_mem w' =
       set_audit_log (audit_log (w_mem w) ++ stamp_from env (w_clock w) msgs)
                     (fst (fst (iteration_effect env w)))
    /\ (validation_logged (audit_log (w_mem w)) = true
        \/ (next_action (w_mem w) = Some validate_invoice
            /\ fst (tool_validate_invoice env (w_mem w)) = true) ->
        validation_logged (audit_log (w_mem w')) = true)
    /\ (forall exn, snd (fst (iteration_effect env w)) = Raises exn ->
                    exn = "OverflowError"
                    /\ iteration_renders (w_mem w) = false).
Proof.
  pose proof (next_action_inv (w_mem w)) as Hinv.
  unfold iteration_effect, iteration_renders, amount_formatted.
  destruct (next_action (w_mem w)) as [a|] eqn:Hna.
  2:{ rewrite (iteration_done _ _ _ Hna). effect_case.
      split; [|discriminate].
      intros [H|[H _]]; [|discriminate]. mem_fields.
      rewrite validation_logged_snoc, H. reflexivity. }
  rewrite (iteration_action _ _ _ _ Hna).
  destruct a.
  - rewrite dispatch_validate.
    change (tool_validate_invoice env (w_mem (log_world env _ w)))
      with (tool_validate_invoice env (w_mem w)).
    effect_case. split; [|discriminate].
    mem_fields. rewrite !validation_logged_snoc.
    intros [H|[_ H]]; [rewrite H; reflexivity|].
    rewrite (validate_invoice_ok_msg _ _ H), validated_line.
    apply orb_true_r.
  - destruct Hinv as (Hlog & _).
    rewrite dispatch_kyc.
    change (vendor_id (invoice (w_mem (log_world env _ w))))
      with (vendor_id (invoice (w_mem w))).
    effect_case. split; [|discriminate].
    intros _. mem_fields. rewrite !validation_logged_snoc, Hlog. reflexivity.
  - destruct Hinv as (Hlog & _).
    rewrite dispatch_aml.
    change (vendor_id (invoice (w_mem (log_world env _ w))))
      with (vendor_id (invoice (w_mem w))).
    effect_case. split; [|discriminate].
    intros _. mem_fields. rewrite !validation_logged_snoc, Hlog. reflexivity.
  - destruct Hinv as (Hlog & _).
    rewrite dispatch_propose.
    change (tool_propose_plan env (w_mem (log_world env _ w)))
      with (tool_propose_plan env (w_mem w)).
    effect_case. split; [|discriminate].
    intros _. mem_fields. rewrite !validation_logged_snoc, Hlog. reflexivity.
  - destruct Hinv as (Hlog & _ & _ & p & Hp & _). rewrite Hp.
    destruct (renders (immediate_cents p)) eqn:Hrend.
    + erewrite dispatch_execute; [|exact Hp|exact Hrend]. mem_fields.
      destruct (proj1 (execute_payment_outcome env (account (w_mem w))
                         (immediate_cents p) (plan_currency p) (w_uuids w)) Hrend)
        as (ok & msg & txn & Hr).
      rewrite Hr. cbn [succeeded msg_of id_of].
      destruct ok; effect_case; (split; [|discriminate]);
        intros _; mem_fields; rewrite !validation_logged_snoc, Hlog; reflexivity.
    + erewrite dispatch_execute_overflow; [|exact Hp|exact Hrend]. mem_fields.
      destruct (returned (tool_execute_payment env (account (w_mem w))
                  (immediate_cents p) (plan_currency p) (w_uuids w)))
        as [[[ok msg] txn]|exn] eqn:Hr.
      * effect_case. split; [|intros exn [= <-]; auto].
        intros _. mem_fields. rewrite !validation_logged_snoc, Hlog. reflexivity.
      * apply execute_payment_outcome in Hr. destruct Hr as (-> & _).
        effect_case. split; [|intros exn [= <-]; auto].
        intros _. mem_fields. rewrite !validation_logged_snoc, Hlog. reflexivity.
  - destruct Hinv as (Hlog & _ & _ & p & Hp & _). rewrite Hp.
    destruct (renders (scheduled_cents p)) eqn:Hrend.
    + erewrite dispatch_schedule; [|exact Hp|exact Hrend]. cbv zeta.
      effect_case. split; [|discriminate].
      intros _. mem_fields. rewrite !validation_logged_snoc, Hlog. reflexivity.
    + erewrite dispatch_schedule_overflow; [|exact Hp|exact Hrend].
      effect_case. split; [|intros exn [= <-]; auto].
      intros _. mem_fields. rewrite !validation_logged_snoc, Hlog. reflexivity.
Qed.

(** ** What a run keeps *)

(** A relation that holds across every iteration, however it ends, and is
    reflexive and transitive, holds between the world a run starts in and
    the one it ends in, whatever the fuel. *)
Lemma loop_preserves (env : Env) (R : World -> World -> Prop) :
  (forall w, R w w) ->
  (forall w1 w2 w3, R w1 w2 -> R w2 w3 -> R w1 w3) ->
  (forall step w, R w (world_after (iteration env step w))) ->
  forall fuel step w, R w (world_of (loop env fuel step w)).
Proof.
  intros Hrefl Htrans Hstep.
  induction fuel as [|fuel IH]; intros step w; cbn [loop world_of]; [apply Hrefl|].
  specialize (Hstep (S step) w).
  destruct (iteration env (S step) w) as [[] w'|e w'];
    cbn [world_after world_of] in *; auto.
  eapply Htrans; [exact Hstep | apply IH].
Qed.

Lemma iteration_conserved (env : Env) (step : nat) (w : World) :
  conserved (w_mem w) (w_mem (world_after (iteration env step w))).
Proof.
  destruct (iteration_effect_sound env step w)
    as (w1 & msgs & Hit & _ & _ & _ & Hm & _).
  rewrite Hit, world_after_finish, Hm. clear Hit Hm.
  unfold iteration_effect, conserved.
  destruct (next_action (w_mem w)) as [[]|]; mem_fields;
    try solve [repeat split; try reflexivity; lia];
    (destruct (payment_plan (w_mem w)) as [p|]; mem_fields;
     [|repeat split; try reflexivity; lia]).
  - unfold tool_execute_payment, fmt_cents.
    destruct (Z.leb_spec (immediate_cents p) 0);
      [|destruct (Z.ltb_spec (balance_cents (account (w_mem w)))
                             (immediate_cents p))];
      destruct (renders (immediate_cents p)); cbn;
      repeat split; try reflexivity; lia.
  - destruct (renders (scheduled_cents p)); mem_fields;
      repeat split; try reflexivity; lia.
Qed.

(** From any memory and for any number of iterations, the loop leaves the
    invoice and the error list as they were, keeps the account's
    identifier and daily limit, conserves [balance + spent_today], and
    never raises the balance. *)
Theorem run_conserves (env : Env) (fuel step : nat) (w : World) :
  conserved (w_mem w) (w_mem (world_of (loop env fuel step w))).
Proof.
  apply (loop_preserves env (fun w w' => conserved (w_mem w) (w_mem w'))).
  - intros w0. unfold conserved. repeat split; try reflexivity; lia.
  - unfold conserved. intros w1 w2 w3 H12 H23.
    destruct H12 as (? & ? & ? & ? & ? & ?), H23 as (? & ? & ? & ? & ? & ?).
    repeat split; (congruence || lia).
  - apply iteration_conserved.
Qed.

Lemma iteration_kept (env : Env) (step : nat) (w : World) :
  kept (w_mem w) (w_mem (world_after (iteration env step w))).
Proof.
  destruct (iteration_effect_sound env step w)
    as (w1 & msgs & Hit & _ & _ & _ & Hm & Hlog & _).
  rewrite Hit, world_after_finish.
  split; [intros H; apply Hlog; left; exact H|].
  rewrite Hm. clear Hit Hm Hlog.
  pose proof (next_action_inv (w_mem w)) as Hinv.
  unfold iteration_effect.
  destruct (next_action (w_mem w)) as [[]|]; cbn [fst snd]; mem_fields;
    try solve [repeat split; intros; (assumption || congruence || lia)].
  - destruct Hinv as (_ & Hk).
    repeat split; intros; (assumption || congruence || lia).
  - destruct Hinv as (_ & _ & Ha).
    repeat split; intros; (assumption || congruence || lia).
  - destruct Hinv as (_ & _ & _ & Hp).
    repeat split; intros; (assumption || congruence || lia).
  - destruct Hinv as (_ & _ & _ & p & Hp & Hlt). rewrite Hp.
    destruct (returned _) as [[[[] msg] txn]|exn];
      destruct (renders (immediate_cents p)); cbn [fst snd]; mem_fields;
      repeat split; intros; (assumption || congruence || lia).
  - destruct Hinv as (_ & _ & _ & p & Hp & _). rewrite Hp.
    destruct (renders (scheduled_cents p)); cbn [fst snd]; mem_fields;
      repeat split; intros; (assumption || congruence || lia).
Qed.

Lemma loop_kept (env : Env) (fuel step : nat) (w : World) :
  kept (w_mem w) (w_mem (world_of (loop env fuel step w))).
Proof.
  apply (loop_preserves env (fun w w' => kept (w_mem w) (w_mem w'))).
  - intros w0. unfold kept. repeat split; intros; (assumption || lia).
  - unfold kept. intros w1 w2 w3 H12 H23.
    destruct H12 as (A1 & A2 & A3 & A4 & A5 & A6),
             H23 as (B1 & B2 & B3 & B4 & B5 & B6).
    repeat split; intros; eauto; lia.
  - apply iteration_kept.
Qed.

(** From any memory and for any number of iterations, the loop undoes
    nothing: a validation once in the audit log stays recorded, a KYC or
    AML flag once set keeps its value, a plan once proposed is never
    replaced, a scheduling is never withdrawn, and the executed amount
    never goes down. *)
Theorem run_keeps_progress (env : Env) (fuel step : nat) (w : World) :
  kept (w_mem w) (w_mem (world_of (loop env fuel step w))).
Proof. apply loop_kept. Qed.

Lemma iteration_log_mirrors_output (env : Env) (step : nat) (w : World) :
  log_mirrors_output env w (world_after (iteration env step w)).
Proof.
  destruct (iteration_effect_sound env step w)
    as (w1 & msgs & Hit & Hout & Hclk & _ & Hm & _).
  rewrite Hit, world_after_finish. exists msgs.
  rewrite Hm. auto.
Qed.

(** From any memory and for any number of iterations, the audit log only
    grows, and by exactly the messages printed: each new audit line is a
    printed message behind the timestamp of its own clock reading, in the
    order of printing, one clock reading per line. *)
Theorem run_log_mirrors_output (env : Env) (fuel step : nat) (w : World) :
  log_mirrors_output env w (world_of (loop env fuel step w)).
Proof.
  apply (loop_preserves env (log_mirrors_output env)).
  - intros w0. exists []. rewrite !app_nil_r. auto.
  - intros w1 w2 w3 (a & Ha1 & Ha2 & Ha3) (b & Hb1 & Hb2 & Hb3).
    exists (a ++ b)%list.
    rewrite Hb1, Hb2, Hb3, Ha1, Ha2, Ha3, stamp_from_app, length_app.
    rewrite <- !app_assoc. repeat split. lia.
  - apply iteration_log_mirrors_output.
Qed.

(** ** How a run ends *)

Lemma debited_0 (a : Account) : debited a 0 = a.
Proof. destruct a. unfold debited. cbn. f_equal; lia. Qed.

Lemma validate_invoice_ext (env : Env) (m m' : Memory) :
  invoice m = invoice m' ->
  tool_validate_invoice env m = tool_validate_invoice env m'.
Proof. intros H. unfold tool_validate_invoice. rewrite H. reflexivity. Qed.

Lemma propose_plan_ext (env : Env) (m m' : Memory) :
  invoice m = invoice m' -> account m = account m' ->
  tool_propose_plan env m = tool_propose_plan env m'.
Proof. intros H H'. unfold tool_propose_plan. rewrite H, H'. reflexivity. Qed.

Lemma propose_plan_sum (env : Env) (m : Memory) :
  immediate_cents (snd (tool_propose_plan env m))
  + scheduled_cents (snd (tool_propose_plan env m)) = amount (invoice m).
Proof.
  unfold tool_propose_plan.
  destruct (_ <=? 0); [cbn; lia|]. destruct (_ >? 0); cbn; lia.
Qed.

Lemma run_invariant_init (env : Env) (m0 : Memory) :
  unplanned m0 -> run_invariant env m0 m0.
Proof.
  intros (Hp & He & Hs). unfold run_invariant.
  repeat split; auto; intros; congruence.
Qed.

(** An iteration that goes on has the validation in the audit log. *)
Lemma continue_validated (env : Env) (step : nat) (w w' : World) :
  iteration env step w = Ok Continue w' ->
  validation_logged (audit_log (w_mem w')) = true.
Proof.
  destruct (iteration_effect_sound env step w)
    as (w1 & msgs & Hit & _ & _ & _ & _ & Hlog & _).
  rewrite Hit. intros Hf. apply finish_ok in Hf. destruct Hf as [Hs <-].
  apply Hlog.
  pose proof (next_action_inv (w_mem w)) as Hinv.
  unfold iteration_effect in Hs.
  destruct (next_action (w_mem w)) as [[]|]; cbn [fst snd] in Hs;
    try (left; apply Hinv); try discriminate.
  right. split; [reflexivity|].
  destruct (fst (tool_validate_invoice env (w_mem w))); [reflexivity|discriminate].
Qed.

Ltac by_plan_invariant Hp :=
  auto; try congruence;
  try match goal with
      | H : payment_plan _ = Some ?p |- _ =>
          destruct (Hp p H) as (? & ? & ? & ? & ?); auto; congruence
      end.

Lemma iteration_invariant (env : Env) (m0 : Memory) (step : nat) (w w' : World) :
  run_invariant env m0 (w_mem w) ->
  iteration env step w = Ok Continue w' ->
  run_invariant env m0 (w_mem w').
Proof.
  intros (Hi & He & Hx & Hs & Hp & Hv & Hk & Ha & Hvk & Hka) Hc.
  pose proof (continue_validated env step w w' Hc) as Hlog'.
  destruct (iteration_effect_sound env step w)
    as (w1 & msgs & Hit & _ & _ & _ & Hm & _).
  rewrite Hit in Hc. apply finish_ok in Hc. destruct Hc as [Hsig <-].
  pose proof (next_action_inv (w_mem w)) as Hinv.
  rewrite Hm in *. clear Hm Hit.
  cbn [audit_log set_audit_log] in Hlog'.
  unfold iteration_effect in *.
  destruct (next_action (w_mem w)) as [[]|]; cbn [fst snd] in *;
    try discriminate; unfold run_invariant; mem_fields.
  - (* validate_invoice *)
    repeat split; intros; by_plan_invariant Hp.
  - (* run_kyc *)
    destruct Hinv as (Hlog & Hkn).
    repeat split; intros; by_plan_invariant Hp.
    match goal with H : is_set _ = true |- _ =>
      rewrite (Hk H) in Hkn; rewrite Hkn in H; discriminate end.
  - (* run_aml *)
    destruct Hinv as (Hlog & Hks & Han).
    repeat split; intros; by_plan_invariant Hp.
    + match goal with H : is_set _ = true |- _ =>
        rewrite (Ha H) in Han; rewrite Han in H; discriminate end.
    + match goal with H : _ \/ _ |- _ =>
        destruct H as [H|H]; [congruence | rewrite H in Hks; discriminate] end.
  - (* propose_plan *)
    destruct Hinv as (Hlog & Hks & Has & Hpn).
    assert (executed_amount_cents (w_mem w) = 0
            /\ account (w_mem w) = account m0) as (Hex & Hacc).
    { destruct Hx as [?|(p & Hpp & _)]; [assumption|congruence]. }
    repeat split; intros; by_plan_invariant Hp.
    + match goal with H : Some _ = Some _ |- _ => injection H as <- end.
      f_equal. apply propose_plan_ext; assumption.
    + match goal with H : scheduled _ = true |- _ =>
        rewrite (Hs Hpn) in H; discriminate end.
    + match goal with H : _ \/ _ |- _ =>
        destruct H as [H|H]; [congruence | rewrite H in Hks; discriminate] end.
  - (* execute_immediate *)
    destruct Hinv as (Hlog & Hks & Has & p & Hpp & Hlt).
    rewrite Hpp in Hsig |- *.
    destruct (Hp p Hpp) as (Hprop & Hsch & _).
    assert (executed_amount_cents (w_mem w) = 0
            /\ account (w_mem w) = account m0) as (Hex & Hacc).
    { destruct Hx as [?|(p' & Hpp' & _ & Hex & _)]; [assumption|].
      rewrite Hpp in Hpp'. injection Hpp' as <-. lia. }
    assert (0 < immediate_cents p <= balance_cents (account (w_mem w))) as Hcov.
    { rewrite Hacc. rewrite Hprop in *. rewrite propose_plan_immediate in *. lia. }
    destruct (renders (immediate_cents p)) eqn:Hrend.
    2:{ rewrite (execute_payment_overflow env _ _ _ _ Hcov Hrend) in Hsig.
        cbn in Hsig. discriminate. }
    rewrite (execute_payment_succeeds env _ _ _ _ Hcov Hrend).
    cbn [returned fst snd acct_after uuids_after]. mem_fields.
    repeat split; intros; by_plan_invariant Hp.
    + right. exists p. repeat split; auto; [lia|].
      rewrite Hacc. reflexivity.
    + match goal with H : _ \/ _ |- _ =>
        destruct H as [H|H]; [congruence | rewrite H in Hks; discriminate] end.
  - (* schedule_remainder *)
    destruct Hinv as (Hlog & Hks & Has & p & Hpp & Hle & Hsf & Hpos).
    rewrite Hpp in Hsig |- *.
    destruct (renders (scheduled_cents p)); [|discriminate].
    cbn [fst snd]. mem_fields.
    repeat split; intros; by_plan_invariant Hp.
    match goal with H : _ \/ _ |- _ =>
      destruct H as [H|H]; [congruence | rewrite H in Hks; discriminate] end.
Qed.

Lemma iteration_break_outcome (env : Env) (m0 : Memory) (step : nat)
    (w w' : World) :
  run_invariant env m0 (w_mem w) ->
  iteration env step w = Ok Break w' ->
  (next_action (w_mem w) = None /\ settled env m0 (w_mem w'))
  \/ (next_action (w_mem w) <> None /\ stopped_by_check env m0 (w_mem w')).
Proof.
  intros (Hi & He & Hx & Hs & Hp & Hv & Hk & Ha & Hvk & Hka) Hb.
  destruct (iteration_effect_sound env step w)
    as (w1 & msgs & Hit & _ & _ & _ & Hm & _).
  rewrite Hit in Hb. apply finish_ok in Hb. destruct Hb as [Hsig <-].
  pose proof (next_action_inv (w_mem w)) as Hinv.
  rewrite Hm. clear Hm Hit.
  assert (Hplan : payment_plan (w_mem w) = None ->
                  executed_amount_cents (w_mem w) = 0
                  /\ account (w_mem w) = account m0).
  { intros Hn. destruct Hx as [?|(p & Hpp & _)]; [assumption|congruence]. }
  unfold iteration_effect in *.
  destruct (next_action (w_mem w)) as [[]|]; cbn [fst snd] in *;
    try discriminate.
  - (* validation failed *)
    right. split; [discriminate|].
    assert (payment_plan (w_mem w) = None) as Hn.
    { destruct (payment_plan (w_mem w)) as [p|] eqn:E; [|reflexivity].
      destruct (Hp p eq_refl) as (_ & _ & ? & _). congruence. }
    destruct (Hplan Hn). unfold stopped_by_check. mem_fields.
    repeat split; auto. left.
    rewrite <- (validate_invoice_ext env (w_mem w) m0 Hi).
    repeat split; auto.
    + destruct (validation_logged (audit_log m0)); [|reflexivity].
      rewrite (Hv eq_refl) in Hinv. discriminate.
    + destruct (fst (tool_validate_invoice env (w_mem w)));
        [discriminate|reflexivity].
  - (* KYC failed *)
    right. split; [discriminate|].
    destruct Hinv as (Hlog & Hkn).
    assert (payment_plan (w_mem w) = None) as Hn.
    { destruct (payment_plan (w_mem w)) as [p|] eqn:E; [|reflexivity].
      destruct (Hp p eq_refl) as (_ & _ & _ & Hks & _).
      rewrite Hkn in Hks. discriminate. }
    destruct (Hplan Hn). unfold stopped_by_check. mem_fields.
    repeat split; auto. right. left. rewrite <- Hi.
    destruct (fst (tool_run_kyc (vendor_id (invoice (w_mem w)))));
      [discriminate|].
    repeat split; auto.
    destruct (vendor_kyc_ok m0) eqn:E; [|reflexivity].
    rewrite (Hk eq_refl) in Hkn. discriminate.
  - (* AML failed *)
    right. split; [discriminate|].
    destruct Hinv as (Hlog & Hks & Han).
    assert (payment_plan (w_mem w) = None) as Hn.
    { destruct (payment_plan (w_mem w)) as [p|] eqn:E; [|reflexivity].
      destruct (Hp p eq_refl) as (_ & _ & _ & _ & Has).
      rewrite Han in Has. discriminate. }
    destruct (Hplan Hn). unfold stopped_by_check. mem_fields.
    repeat split; auto. right. right. rewrite <- Hi.
    destruct (fst (tool_run_aml_screening (vendor_id (invoice (w_mem w)))));
      [discriminate|].
    repeat split; auto.
    destruct (vendor_aml_ok m0) eqn:E; [|reflexivity].
    rewrite (Ha eq_refl) in Han. discriminate.
  - (* execute_immediate never breaks *)
    exfalso. revert Hsig.
    destruct (payment_plan (w_mem w)) as [p|]; [|cbn; intros ?; discriminate].
    destruct (returned _) as [[[? ?] ?]|?];
      destruct (renders (immediate_cents p)); cbn; intros ?; discriminate.
  - (* nor does schedule_remainder *)
    exfalso. revert Hsig.
    destruct (payment_plan (w_mem w)) as [p|]; [|cbn; intros ?; discriminate].
    destruct (renders (scheduled_cents p)); cbn; intros ?; discriminate.
  - (* Done *)
    left. split; [reflexivity|].
    destruct Hinv as (Hlog & Hks & Has & p & Hpp & Hle & Hsch).
    destruct (Hp p Hpp) as (Hprop & Hst & _).
    unfold settled. cbv zeta. rewrite <- Hprop. mem_fields.
    assert (0 <= immediate_cents p) as Hnn.
    { rewrite Hprop, propose_plan_immediate. lia. }
    repeat split; auto.
    + rewrite Hprop. apply propose_plan_sum.
    + destruct Hx as [[Hex _]|(p' & Hpp' & _ & Hex & _)]; [lia|].
      rewrite Hpp in Hpp'. injection Hpp' as <-. exact Hex.
    + destruct Hx as [[Hex Hacc]|(p' & Hpp' & _ & Hex & Hacc)].
      * replace (immediate_cents p) with 0 by lia.
        rewrite debited_0. exact Hacc.
      * rewrite Hpp in Hpp'. injection Hpp' as <-. exact Hacc.
    + destruct (scheduled (w_mem w)) eqn:E.
      * symmetry. apply Z.ltb_lt. auto.
      * destruct Hsch as [?|?]; [discriminate|].
        symmetry. apply Z.ltb_ge. assumption.
    + rewrite validation_logged_app, Hlog. reflexivity.
Qed.

(** A run started on an unplanned memory, if it leaves the loop, leaves it
    in one of two ways: settled or stopped by a failed check. *)
Lemma loop_outcome (env : Env) (m0 : Memory) (fuel : nat) :
  forall (step : nat) (w w' : World),
    run_invariant env m0 (w_mem w) ->
    loop env fuel step w = Finished w' ->
    settled env m0 (w_mem w') \/ stopped_by_check env m0 (w_mem w').
Proof.
  induction fuel as [|fuel IH]; intros step w w' Hinv; cbn [loop];
    [discriminate|].
  destruct (iteration env (S step) w) as [[] w1|e w1] eqn:Hit;
    [| |discriminate].
  - apply IH. eapply iteration_invariant; eassumption.
  - intros [= <-].
    destruct (iteration_break_outcome env m0 (S step) w w1 Hinv Hit)
      as [[_ ?]|[_ ?]]; auto.
Qed.

(** A settled memory is one the planner has nothing left to do for. *)
Lemma settled_is_done (env : Env) (m0 m' : Memory) :
  settled env m0 m' -> next_action m' = None.
Proof.
  unfold settled. cbv zeta.
  intros (Hp & _ & He & _ & Hs & Hl & Hk & Ha).
  unfold next_action. rewrite Hl, Hp, He, Hs, Z.ltb_irrefl. cbn [negb].
  destruct (vendor_kyc_ok m'); [|discriminate].
  destruct (vendor_aml_ok m'); [|discriminate].
  rewrite Z.gtb_ltb. destruct (0 <? _); reflexivity.
Qed.

Lemma unplanned_covered (m : Memory) :
  unplanned m -> plan_covered m /\ (pending m <= 6)%nat.
Proof.
  intros (Hp & _ & _). unfold plan_covered, pending. rewrite Hp.
  split; [exact I|].
  destruct (validation_logged _), (is_set (vendor_kyc_ok m)),
    (is_set (vendor_aml_ok m)); cbn; lia.
Qed.

Lemma unplanned_amounts_render (m : Memory) :
  unplanned m -> renders (amount (invoice m)) = true -> amounts_render m.
Proof. intros (Hp & _) H. unfold amounts_render. rewrite Hp. exact H. Qed.

(** The end of a run started on an unplanned memory whose invoice amount
    renders, with its outcome. *)
Lemma unplanned_run_cases (env : Env) (w : World) :
  unplanned (w_mem w) ->
  renders (amount (invoice (w_mem w))) = true ->
  exists w',
    loop env 7 0 w = Finished w'
    /\ (settled env (w_mem w) (w_mem w')
        \/ stopped_by_check env (w_mem w) (w_mem w')).
Proof.
  intros Hu Hr. destruct (unplanned_covered _ Hu) as (Hc & Hn).
  destruct (loop_terminates env 6 0 w Hc Hn) as (_ & Hfin).
  destruct (Hfin (unplanned_amounts_render _ Hu Hr)) as (w' & Hrun).
  exists w'. split; [exact Hrun|].
  exact (loop_outcome env (w_mem w) 7 0 w w' (run_invariant_init env _ Hu) Hrun).
Qed.

(** A run started on a memory without a plan (nothing executed, nothing
    scheduled), fresh or not, on an invoice whose amount renders, leaves
    the loop within seven iterations, and
    in one of two states.  Either it is settled: the plan proposed for the
    initial invoice and account is in place, its two parts add up to the
    invoice amount, its immediate part is recorded as executed and debited
    from the account, its scheduled part is scheduled exactly when
    positive, and the planner has nothing left to do.  Or a check the run
    made failed (validation, KYC or AML), and then there is no plan,
    nothing was executed or scheduled, and the account is as it was. *)
Theorem unplanned_run_outcome (env : Env) (w : World) :
  unplanned (w_mem w) ->
  renders (amount (invoice (w_mem w))) = true ->
  exists w',
    run_episode env 7 w = Finished w'
    /\ ((settled env (w_mem w) (w_mem w') /\ next_action (w_mem w') = None)
        \/ stopped_by_check env (w_mem w) (w_mem w')).
Proof.
  intros Hu Hr.
  destruct (unplanned_run_cases env w Hu Hr) as (w' & Hrun & [H|H]);
    exists w'; (split; [exact Hrun|]); [left|right; exact H].
  split; [exact H | exact (settled_is_done _ _ _ H)].
Qed.

Lemma unplanned_run_outcome_demo :
  exists w',
    run_episode demo_env 7 demo_world = Finished w'
    /\ ((settled demo_env (w_mem demo_world) (w_mem w')
         /\ next_action (w_mem w') = None)
        \/ stopped_by_check demo_env (w_mem demo_world) (w_mem w')).
Proof.
  apply (unplanned_run_outcome demo_env demo_world).
  - repeat split; reflexivity.
  - reflexivity.
Defined.

Lemma validate_invoice_ok_positive (env : Env) (m : Memory) :
  fst (tool_validate_invoice env m) = true -> 0 < amount (invoice m).
Proof.
  unfold tool_validate_invoice.
  destruct (Z.leb_spec (amount (invoice m)) 0); [discriminate|]. auto.
Qed.

(** What a run started on an unplanned memory, on an invoice whose amount
    renders, takes from the account is what it records as executed, never
    a negative amount; it leaves a balance that was [>= 0] so, and a
    [spent_today] that was within the daily limit within it. *)
Theorem run_within_limits (env : Env) (w : World) :
  unplanned (w_mem w) ->
  renders (amount (invoice (w_mem w))) = true ->
  exists w',
    run_episode env 7 w = Finished w'
    /\ 0 <= executed_amount_cents (w_mem w')
    /\ balance_cents (account (w_mem w'))
       = balance_cents (account (w_mem w)) - executed_amount_cents (w_mem w')
    /\ spent_today_cents (account (w_mem w'))
       = spent_today_cents (account (w_mem w)) + executed_amount_cents (w_mem w')
    /\ (0 <= balance_cents (account (w_mem w)) ->
        0 <= balance_cents (account (w_mem w')))
    /\ (spent_today_cents (account (w_mem w))
          <= daily_limit_cents (account (w_mem w)) ->
        spent_today_cents (account (w_mem w'))
          <= daily_limit_cents (account (w_mem w'))).
Proof.
  intros Hu Hr. destruct (unplanned_run_cases env w Hu Hr) as (w' & Hrun & Hout).
  exists w'. split; [exact Hrun|].
  destruct Hout as [Hs|Hs].
  - unfold settled in Hs. cbv zeta in Hs.
    destruct Hs as (_ & _ & He & Ha & _).
    rewrite He, Ha. unfold debited. cbn.
    rewrite propose_plan_immediate. repeat split; lia.
  - destruct Hs as (_ & Ha & He & _). rewrite He, Ha. repeat split; lia.
Qed.

Lemma run_within_limits_demo :
  exists w',
    run_episode demo_env 7 demo_world = Finished w'
    /\ 0 <= balance_cents (account (w_mem w'))
    /\ spent_today_cents (account (w_mem w'))
       <= daily_limit_cents (account (w_mem w')).
Proof.
  destruct (run_within_limits demo_env demo_world
              ltac:(repeat split; reflexivity) eq_refl)
    as (w' & Hrun & _ & _ & _ & Hb & Hl).
  exists w'. split; [exact Hrun|]. split; [apply Hb|apply Hl]; cbn; lia.
Defined.

(** When the invoice is valid, its amount renders, and the vendor passes
    KYC and AML, a run started on an unplanned memory settles the invoice.  If moreover the
    account has no balance, or no daily limit left, nothing is debited and
    the whole amount is scheduled. *)
Theorem valid_invoice_is_settled (env : Env) (w : World) :
  let m := w_mem w in
  unplanned m ->
  renders (amount (invoice m)) = true ->
  fst (tool_validate_invoice env m) = true ->
  fst (tool_run_kyc (vendor_id (invoice m))) = true ->
  fst (tool_run_aml_screening (vendor_id (invoice m))) = true ->
  exists w',
    run_episode env 7 w = Finished w'
    /\ settled env m (w_mem w')
    /\ (balance_cents (account m) <= 0
        \/ daily_limit_cents (account m) <= spent_today_cents (account m) ->
        account (w_mem w') = account m
        /\ executed_amount_cents (w_mem w') = 0
        /\ scheduled (w_mem w') = true
        /\ (exists p, payment_plan (w_mem w') = Some p
                      /\ scheduled_cents p = amount (invoice m))).
Proof.
  cbv zeta. intros Hu Hr Hv Hk Ha.
  destruct (unplanned_run_cases env w Hu Hr) as (w' & Hrun & Hout).
  exists w'. split; [exact Hrun|].
  destruct Hout as [Hs|(_ & _ & _ & _ & Hc)].
  2:{ exfalso. destruct Hc as [(_ & H & _)|[(_ & H & _)|(_ & H & _)]];
        congruence. }
  split; [exact Hs|]. intros Hz.
  pose proof (validate_invoice_ok_positive _ _ Hv) as Hpos.
  pose proof (propose_plan_immediate env (w_mem w)) as Himm.
  pose proof (propose_plan_sum env (w_mem w)) as Hsum.
  unfold settled in Hs. cbv zeta in Hs.
  destruct Hs as (Hp & _ & He & Hacc & Hsch & _).
  assert (immediate_cents (snd (tool_propose_plan env (w_mem w))) = 0) as H0
      by lia.
  rewrite H0 in *. rewrite debited_0 in Hacc.
  repeat split; auto.
  - rewrite Hsch. apply Z.ltb_lt. lia.
  - eexists. split; [exact Hp|]. lia.
Qed.

Lemma valid_invoice_is_settled_demo :
  exists w',
    run_episode demo_env 7 demo_world = Finished w'
    /\ settled demo_env (w_mem demo_world) (w_mem w').
Proof.
  destruct (valid_invoice_is_settled demo_env demo_world
              ltac:(repeat split; reflexivity) eq_refl eq_refl eq_refl eq_refl)
    as (w' & Hrun & Hs & _).
  exists w'. split; assumption.
Defined.

(** The planner asks whether the KYC and AML flags are set, never what
    they say.  So a run started on an unplanned memory whose validation is
    logged and whose KYC flag is set, to [False] as well as to [True],
    goes on: if the AML flag is set too, or the vendor passes AML, and the
    invoice amount renders, the invoice is settled, and the flags are left
    as they were found. *)
Theorem set_flag_is_not_consulted (env : Env) (w : World) (kyc : bool) :
  let m := w_mem w in
  unplanned m ->
  renders (amount (invoice m)) = true ->
  validation_logged (audit_log m) = true ->
  vendor_kyc_ok m = Some kyc ->
  is_set (vendor_aml_ok m) = true
  \/ fst (tool_run_aml_screening (vendor_id (invoice m))) = true ->
  exists w',
    run_episode env 7 w = Finished w'
    /\ settled env m (w_mem w')
    /\ vendor_kyc_ok (w_mem w') = Some kyc.
Proof.
  cbv zeta. intros Hu Hr Hv Hk Ha.
  destruct (unplanned_run_cases env w Hu Hr) as (w' & Hrun & Hout).
  exists w'. split; [exact Hrun|].
  destruct Hout as [Hs|(_ & _ & _ & _ & Hc)].
  2:{ exfalso. destruct Hc as [(H & _)|[(H & _)|(H & H' & _)]];
        try congruence.
      destruct Ha as [Ha|Ha]; [rewrite H in Ha; discriminate|congruence]. }
  split; [exact Hs|].
  pose proof (loop_kept env 7 0 w) as (_ & Hkk & _).
  rewrite Hrun in Hkk. apply Hkk. exact Hk.
Qed.

Lemma set_flag_is_not_consulted_demo :
  exists w',
    run_episode demo_env 7 (mkWorld demo_kyc_failed_memory 6 0 []) = Finished w'
    /\ vendor_kyc_ok (w_mem w') = Some false
    /\ executed_amount_cents (w_mem w') = 18000.
Proof.
  destruct (set_flag_is_not_consulted demo_env
              (mkWorld demo_kyc_failed_memory 6 0 []) false
              ltac:(repeat split; reflexivity) eq_refl eq_refl eq_refl
              ltac:(right; reflexivity))
    as (w' & Hrun & Hs & Hk).
  exists w'. split; [exact Hrun|]. split; [exact Hk|].
  destruct Hs as (_ & _ & He & _). exact He.
Defined.

(** ** Runs that stop at a check *)

Lemma step_validate (env : Env) (step : nat) (w : World) :
  validation_logged (audit_log (w_mem w)) = false ->
  let r := tool_validate_invoice env (w_mem w) in
  exists w1 new,
    iteration env step w = Ok (if fst r then Continue else Break) w1
    /\ w_mem w1 = set_audit_log (audit_log (w_mem w) ++ new) (w_mem w)
    /\ w_uuids w1 = w_uuids w
    /\ (fst r = true ->
        validation_logged (audit_log (w_mem w) ++ new) = true).
Proof.
  intros Hn. cbv zeta.
  assert (Hna : next_action (w_mem w) = Some validate_invoice).
  { unfold next_action. rewrite Hn. reflexivity. }
  destruct (iteration_effect_sound env step w)
    as (w1 & msgs & Hit & _ & _ & Hu & Hm & Hlog & _).
  unfold iteration_effect in Hit, Hu, Hm. rewrite Hna in Hit, Hu, Hm.
  cbn [fst snd finish] in Hit, Hu, Hm.
  exists w1, (stamp_from env (w_clock w) msgs).
  repeat split; auto.
  intros Hok. rewrite Hm in Hlog. apply Hlog. right. auto.
Qed.

Lemma step_kyc (env : Env) (step : nat) (w : World) :
  validation_logged (audit_log (w_mem w)) = true ->
  vendor_kyc_ok (w_mem w) = None ->
  let ok := fst (tool_run_kyc (vendor_id (invoice (w_mem w)))) in
  exists w1 new,
    iteration env step w = Ok (if ok then Continue else Break) w1
    /\ w_mem w1 = set_audit_log (audit_log (w_mem w) ++ new)
                                (set_vendor_kyc_ok (Some ok) (w_mem w))
    /\ w_uuids w1 = w_uuids w.
Proof.
  intros Hl Hk. cbv zeta.
  assert (Hna : next_action (w_mem w) = Some run_kyc).
  { unfold next_action. rewrite Hl, Hk. reflexivity. }
  destruct (iteration_effect_sound env step w)
    as (w1 & msgs & Hit & _ & _ & Hu & Hm & _).
  unfold iteration_effect in Hit, Hu, Hm. rewrite Hna in Hit, Hu, Hm.
  cbn [fst snd finish] in Hit, Hu, Hm.
  exists w1, (stamp_from env (w_clock w) msgs). auto.
Qed.

Lemma step_aml (env : Env) (step : nat) (w : World) :
  validation_logged (audit_log (w_mem w)) = true ->
  is_set (vendor_kyc_ok (w_mem w)) = true ->
  vendor_aml_ok (w_mem w) = None ->
  let ok := fst (tool_run_aml_screening (vendor_id (invoice (w_mem w)))) in
  exists w1 new,
    iteration env step w = Ok (if ok then Continue else Break) w1
    /\ w_mem w1 = set_audit_log (audit_log (w_mem w) ++ new)
                                (set_vendor_aml_ok (Some ok) (w_mem w))
    /\ w_uuids w1 = w_uuids w.
Proof.
  intros Hl Hk Ha. cbv zeta.
  assert (Hna : next_action (w_mem w) = Some run_aml).
  { unfold next_action. rewrite Hl, Ha.
    destruct (vendor_kyc_ok (w_mem w)); [reflexivity|discriminate]. }
  destruct (iteration_effect_sound env step w)
    as (w1 & msgs & Hit & _ & _ & Hu & Hm & _).
  unfold iteration_effect in Hit, Hu, Hm. rewrite Hna in Hit, Hu, Hm.
  cbn [fst snd finish] in Hit, Hu, Hm.
  exists w1, (stamp_from env (w_clock w) msgs). auto.
Qed.

(** When validation is not yet logged and the invoice fails it, the loop
    is left in its first iteration: the memory is what it was but for the
    new audit lines, no uuid is drawn, and no later step has run. *)
Theorem failed_validation_stops_run (env : Env) (fuel step : nat) (w : World) :
  validation_logged (audit_log (w_mem w)) = false ->
  fst (tool_validate_invoice env (w_mem w)) = false ->
  exists w' new,
    loop env (S fuel) step w = Finished w'
    /\ w_mem w' = set_audit_log (audit_log (w_mem w) ++ new) (w_mem w)
    /\ w_uuids w' = w_uuids w.
Proof.
  intros Hn Hf.
  destruct (step_validate env (S step) w Hn) as (w1 & new & Hit & Hm & Hu & _).
  rewrite Hf in Hit.
  exists w1, new. rewrite (loop_break _ _ _ _ _ Hit). auto.
Qed.

Lemma failed_validation_stops_run_demo :
  exists w' new,
    loop demo_env 7 0
      (fresh_world (mkInvoice "INV-0" "ACME_CO" 0 "USD" 739929 "") demo_account
                   0 0 [])
    = Finished w'
    /\ w_mem w' =
       set_audit_log new
         (new_Memory (mkInvoice "INV-0" "ACME_CO" 0 "USD" 739929 "") demo_account).
Proof.
  destruct (failed_validation_stops_run demo_env 6 0
              (fresh_world (mkInvoice "INV-0" "ACME_CO" 0 "USD" 739929 "")
                           demo_account 0 0 [])
              eq_refl eq_refl) as (w' & new & Hrun & Hm & _).
  exists w', new. split; assumption.
Defined.

(** When the invoice is valid, validation is not yet logged, the KYC flag
    is unset and the vendor fails KYC, the loop is left in its second
    iteration: the KYC flag is [False] and, the audit log apart, nothing
    else in the memory has changed (no AML verdict, no plan, the account
    as it was). *)
Theorem failed_kyc_stops_run (env : Env) (fuel step : nat) (w : World) :
  let m := w_mem w in
  validation_logged (audit_log m) = false ->
  fst (tool_validate_invoice env m) = true ->
  vendor_kyc_ok m = None ->
  fst (tool_run_kyc (vendor_id (invoice m))) = false ->
  exists w' new,
    loop env (2 + fuel) step w = Finished w'
    /\ (exists w1, loop env 1 step w = OutOfFuel w1)
    /\ w_mem w' = set_audit_log (audit_log m ++ new)
                                (set_vendor_kyc_ok (Some false) m)
    /\ w_uuids w' = w_uuids w.
Proof.
  cbv zeta. intros Hn Hv Hk Hf.
  destruct (step_validate env (S step) w Hn) as (w1 & n1 & H1 & M1 & U1 & L1).
  rewrite Hv in H1. specialize (L1 Hv).
  destruct (step_kyc env (S (S step)) w1) as (w2 & n2 & H2 & M2 & U2);
    [rewrite M1; exact L1 | rewrite M1; exact Hk|].
  rewrite M1 in H2, M2. mem_fields. cbn [invoice set_audit_log] in H2, M2.
  rewrite Hf in H2, M2.
  exists w2, (n1 ++ n2)%list.
  change (2 + fuel)%nat with (S (S fuel)).
  rewrite (loop_continue _ _ _ _ _ H1), (loop_break _ _ _ _ _ H2).
  split; [reflexivity|]. split.
  { exists w1. cbn [loop]. rewrite H1. reflexivity. }
  split; [|congruence].
  rewrite M2. cbn [audit_log set_audit_log]. rewrite <- app_assoc. reflexivity.
Qed.

Lemma failed_kyc_stops_run_demo :
  exists w',
    loop demo_env 7 0
      (fresh_world (mkInvoice "INV-1002" "ACME_COX" 25000 "USD" 739929 "Hosting")
                   demo_account 0 0 [])
    = Finished w'
    /\ vendor_kyc_ok (w_mem w') = Some false
    /\ payment_plan (w_mem w') = None
    /\ account (w_mem w') = demo_account.
Proof.
  destruct (failed_kyc_stops_run demo_env 5 0
              (fresh_world
                 (mkInvoice "INV-1002" "ACME_COX" 25000 "USD" 739929 "Hosting")
                 demo_account 0 0 [])
              eq_refl eq_refl eq_refl eq_refl)
    as (w' & new & Hrun & _ & Hm & _).
  exists w'. split; [exact Hrun|]. rewrite Hm. repeat split.
Defined.

(** When the invoice is valid, validation is not yet logged, both flags
    are unset, and the vendor passes KYC but is on the AML denylist, the
    loop is left in its third iteration: the KYC flag is [True], the AML
    flag [False], and, the audit log apart, nothing else in the memory has
    changed. *)
Theorem failed_aml_stops_run (env : Env) (fuel step : nat) (w : World) :
  let m := w_mem w in
  validation_logged (audit_log m) = false ->
  fst (tool_validate_invoice env m) = true ->
  vendor_kyc_ok m = None ->
  vendor_aml_ok m = None ->
  fst (tool_run_kyc (vendor_id (invoice m))) = true ->
  fst (tool_run_aml_screening (vendor_id (invoice m))) = false ->
  exists w' new,
    loop env (3 + fuel) step w = Finished w'
    /\ (exists w2, loop env 2 step w = OutOfFuel w2)
    /\ w_mem w' = set_audit_log (audit_log m ++ new)
                    (set_vendor_aml_ok (Some false)
                       (set_vendor_kyc_ok (Some true) m))
    /\ w_uuids w' = w_uuids w.
Proof.
  cbv zeta. intros Hn Hv Hk Ha Hkok Hf.
  destruct (step_validate env (S step) w Hn) as (w1 & n1 & H1 & M1 & U1 & L1).
  rewrite Hv in H1. specialize (L1 Hv).
  destruct (step_kyc env (S (S step)) w1) as (w2 & n2 & H2 & M2 & U2);
    [rewrite M1; exact L1 | rewrite M1; exact Hk|].
  rewrite M1 in H2, M2. cbn [invoice set_audit_log audit_log] in H2, M2.
  rewrite Hkok in H2, M2.
  destruct (step_aml env (S (S (S step))) w2) as (w3 & n3 & H3 & M3 & U3).
  { rewrite M2. cbn [audit_log set_audit_log].
    rewrite validation_logged_app, L1. reflexivity. }
  { rewrite M2. reflexivity. }
  { rewrite M2. exact Ha. }
  rewrite M2 in H3, M3.
  cbn [invoice set_audit_log set_vendor_kyc_ok audit_log] in H3, M3.
  rewrite Hf in H3, M3.
  exists w3, (n1 ++ n2 ++ n3)%list.
  change (3 + fuel)%nat with (S (S (S fuel))).
  rewrite (loop_continue _ _ _ _ _ H1), (loop_continue _ _ _ _ _ H2),
    (loop_break _ _ _ _ _ H3).
  split; [reflexivity|]. split.
  { exists w2. cbn [loop]. rewrite H1, H2. reflexivity. }
  split; [|congruence].
  rewrite M3. rewrite <- !app_assoc. reflexivity.
Qed.

Lemma failed_aml_stops_run_demo :
  exists w',
    loop demo_env 7 0
      (fresh_world (mkInvoice "INV-1003" "OFAC123" 25000 "USD" 739929 "Hosting")
                   demo_account 0 0 [])
    = Finished w'
    /\ vendor_aml_ok (w_mem w') = Some false
    /\ payment_plan (w_mem w') = None
    /\ account (w_mem w') = demo_account.
Proof.
  destruct (failed_aml_stops_run demo_env 4 0
              (fresh_world
                 (mkInvoice "INV-1003" "OFAC123" 25000 "USD" 739929 "Hosting")
                 demo_account 0 0 [])
              eq_refl eq_refl eq_refl eq_refl eq_refl eq_refl)
    as (w' & new & Hrun & _ & Hm & _).
  exists w'. split; [exact Hrun|]. rewrite Hm. repeat split.
Defined.

(** ** Running again *)

(** Once the planner has nothing left to do, running the loop again,
    whatever the fuel, adds the one line "Thought n: Done." to the audit
    log and changes nothing else: no second payment, no second scheduling,
    no uuid drawn; and the planner still has nothing to do. *)
Theorem finished_memory_rerun (env : Env) (fuel step : nat) (w : World) :
  next_action (w_mem w) = None ->
  exists w',
    loop env (S fuel) step w = Finished w'
    /\ w_mem w' =
       set_audit_log
         (audit_log (w_mem w)
            ++ [stamped env (w_clock w)
                  ("Thought " ++ str_nat (S step) ++ ": Done.")])
         (w_mem w)
    /\ w_uuids w' = w_uuids w
    /\ next_action (w_mem w') = None.
Proof.
  intros Hna.
  pose proof (next_action_inv (w_mem w)) as Hinv. rewrite Hna in Hinv.
  destruct Hinv as (Hlog & _).
  eexists. split; [apply loop_break, iteration_done, Hna|].
  split; [reflexivity|]. split; [reflexivity|].
  cbn [w_mem log_world]. rewrite <- Hna. apply next_action_set_audit_log.
  rewrite validation_logged_app, Hlog. reflexivity.
Qed.

Lemma finished_memory_rerun_demo :
  exists w',
    loop demo_env 7 0 (mkWorld demo_done_memory 19 2 []) = Finished w'
    /\ account (w_mem w') = account demo_done_memory
    /\ w_uuids w' = 2%nat.
Proof.
  destruct (finished_memory_rerun demo_env 6 0
              (mkWorld demo_done_memory 19 2 []) eq_refl)
    as (w' & Hrun & Hm & Hu & _).
  exists w'. split; [exact Hrun|]. rewrite Hm. split; [reflexivity|exact Hu].
Defined.

(** ** What counts as a logged validation *)

Lemma prefix_app (s post : string) : String.prefix s (s ++ post) = true.
Proof.
  induction s as [|c s IH]; cbn; [destruct post; reflexivity|].
  destruct (ascii_dec c c); [assumption | congruence].
Qed.

Lemma prefix_spec (s hay : string) :
  String.prefix s hay = true <-> exists post, hay = s ++ post.
Proof.
  split; [|intros [post ->]; apply prefix_app].
  revert hay. induction s as [|c s IH]; intros hay H.
  - now exists hay.
  - destruct hay as [|d hay]; cbn in H; [discriminate|].
    destruct (ascii_dec c d) as [<-|]; [|discriminate].
    destruct (IH hay H) as [post ->]. now exists post.
Qed.

(** [contains] is the substring relation of Python's [in]. *)
Lemma contains_spec (needle hay : string) :
  contains needle hay = true <-> exists pre post, hay = pre ++ needle ++ post.
Proof.
  split.
  - induction hay as [|c hay IH]; cbn [contains]; intros H.
    + rewrite orb_false_r in H. apply prefix_spec in H.
      destruct H as [post H]. now exists "", post.
    + apply orb_true_iff in H. destruct H as [H|H].
      * apply prefix_spec in H. destruct H as [post H]. now exists "", post.
      * destruct (IH H) as (pre & post & ->). now exists (String c pre), post.
  - intros (pre & post & ->). apply contains_app_l.
    destruct needle; cbn [contains append]; [destruct post; reflexivity|].
    change (String a (needle ++ post)) with (String a needle ++ post).
    rewrite prefix_app. reflexivity.
Qed.

(** The planner takes any audit line that contains the text "Invoice
    validated." for a logged validation, and the message of a refused
    currency quotes the currency.  So when the currency of an invoice with
    a positive amount contains that text, the first iteration fails the
    validation and leaves the loop, yet from then on the validation counts
    as logged: run again, the loop starts at the KYC check. *)
Theorem quoted_currency_counts_as_validation (env : Env) (fuel step : nat)
    (w : World) (pre post : string) :
  let m := w_mem w in
  validation_logged (audit_log m) = false ->
  0 < amount (invoice m) ->
  currency (invoice m) = pre ++ "Invoice validated." ++ post ->
  fst (tool_validate_invoice env m) = false
  /\ exists w',
       loop env (S fuel) step w = Finished w'
       /\ validation_logged (audit_log (w_mem w')) = true
       /\ next_action (w_mem w') <> Some validate_invoice
       /\ (vendor_kyc_ok m = None -> next_action (w_mem w') = Some run_kyc).
Proof.
  cbv zeta. intros Hn Hpos Hcur.
  assert (Hc : contains "Invoice validated." (currency (invoice (w_mem w))) = true).
  { apply contains_spec. eauto. }
  assert (Hr : tool_validate_invoice env (w_mem w)
               = (false, "Unsupported currency "
                           ++ currency (invoice (w_mem w)) ++ ".")).
  { unfold tool_validate_invoice.
    destruct (Z.leb_spec (amount (invoice (w_mem w))) 0); [lia|].
    destruct (String.eqb_spec (currency (invoice (w_mem w))) "USD") as [E|_];
      [rewrite E in Hc; discriminate|].
    destruct (String.eqb_spec (currency (invoice (w_mem w))) "EUR") as [E|_];
      [rewrite E in Hc; discriminate|].
    destruct (String.eqb_spec (currency (invoice (w_mem w))) "GBP") as [E|_];
      [rewrite E in Hc; discriminate|].
    reflexivity. }
  split; [rewrite Hr; reflexivity|].
  assert (Hna : next_action (w_mem w) = Some validate_invoice).
  { unfold next_action. rewrite Hn. reflexivity. }
  assert (Hit : exists w', iteration env (S step) w = Ok Break w'
                /\ validation_logged (audit_log (w_mem w')) = true
                /\ vendor_kyc_ok (w_mem w') = vendor_kyc_ok (w_mem w)).
  { rewrite (iteration_action _ _ _ _ Hna), dispatch_validate.
    change (tool_validate_invoice env (w_mem (log_world env _ w)))
      with (tool_validate_invoice env (w_mem w)).
    rewrite Hr. cbn [fst snd]. eexists. split; [reflexivity|].
    split; [|reflexivity].
    mem_fields. rewrite validation_logged_snoc.
    replace (contains _ _) with true; [apply orb_true_r|].
    symmetry. apply contains_spec.
    rewrite Hcur.
    exists (now_iso env (S (S (w_clock w))) ++ " | " ++ "Observation "
              ++ str_nat (S step) ++ ": " ++ "Unsupported currency " ++ pre),
           (post ++ ".").
    rewrite !append_assoc. reflexivity. }
  destruct Hit as (w' & Hit & Hl & Hk).
  exists w'. rewrite (loop_break _ _ _ _ _ Hit).
  split; [reflexivity|]. split; [exact Hl|].
  unfold next_action. rewrite Hl. cbn [negb].
  split.
  - destruct (vendor_kyc_ok (w_mem w')); [|discriminate].
    destruct (vendor_aml_ok (w_mem w')); [|discriminate].
    destruct (payment_plan (w_mem w')); [|discriminate].
    destruct (_ <? _); [discriminate|]. destruct (_ && _); discriminate.
  - intros Hkn. rewrite Hk, Hkn. reflexivity.
Qed.

Lemma quoted_currency_counts_as_validation_demo :
  exists w',
    loop demo_env 7 0
      (fresh_world
         (mkInvoice "INV-9" "ACME_CO" 25000 "Invoice validated." 739929 "")
         demo_account 0 0 [])
    = Finished w'
    /\ next_action (w_mem w') = Some run_kyc.
Proof.
  destruct (quoted_currency_counts_as_validation demo_env 6 0
              (fresh_world
                 (mkInvoice "INV-9" "ACME_CO" 25000 "Invoice validated." 739929 "")
                 demo_account 0 0 [])
              "" "" eq_refl ltac:(cbn; lia) eq_refl)
    as (_ & w' & Hrun & _ & _ & Hk).
  exists w'. split; [exact Hrun | exact (Hk eq_refl)].
Defined.

(** ** Runs that never end, runs that always do *)

(** A refused execution repeats for ever.  When the planner's answer is
    [execute_immediate] and the plan's immediate part renders, is positive
    and above the balance, the loop uses up whatever fuel it is given:
    every iteration adds three lines to the audit log, and the account,
    the executed amount, the plan and the uuid count stay as they are. *)
Theorem refused_execution_never_ends (env : Env) (p : PaymentPlan) (fuel : nat) :
  forall (step : nat) (w : World),
    next_action (w_mem w) = Some execute_immediate ->
    payment_plan (w_mem w) = Some p ->
    renders (immediate_cents p) = true ->
    0 < immediate_cents p ->
    balance_cents (account (w_mem w)) < immediate_cents p ->
    exists w' new,
      loop env fuel step w = OutOfFuel w'
      /\ w_mem w' = set_audit_log (audit_log (w_mem w) ++ new) (w_mem w)
      /\ List.length new = (3 * fuel)%nat
      /\ w_uuids w' = w_uuids w.
Proof.
  induction fuel as [|fuel IH]; intros step w Hna Hp Hrend Hpos Hbal.
  { exists w, []. rewrite app_nil_r. repeat split.
    destruct w as [[] ? ? ?]; reflexivity. }
  pose proof (execute_payment_refused env (account (w_mem w)) (immediate_cents p)
                (plan_currency p) (w_uuids w) Hpos Hbal) as Hfail.
  destruct (iteration_failed_execution env (S step) w p Hna Hp Hrend Hfail)
    as (w1 & l1 & l2 & l3 & Hit & Hm & _ & Hu & Hna1).
  destruct (IH (S step) w1 Hna1) as (w' & new & Hrun & Hm' & Hlen & Hu');
    [rewrite Hm; exact Hp | exact Hrend | exact Hpos
    | rewrite Hm; exact Hbal|].
  exists w', ([l1; l2; l3] ++ new)%list.
  rewrite (loop_continue _ _ _ _ _ Hit).
  split; [exact Hrun|]. split; [|split; [|congruence]].
  - rewrite Hm', Hm. cbn [audit_log set_audit_log].
    rewrite <- app_assoc. reflexivity.
  - rewrite length_app, Hlen. cbn [List.length]. lia.
Qed.

Lemma refused_execution_never_ends_demo :
  exists w',
    loop demo_env 1000 0 (mkWorld demo_uncovered_memory 3 0 []) = OutOfFuel w'
    /\ account (w_mem w') = account demo_uncovered_memory.
Proof.
  destruct (refused_execution_never_ends demo_env
              (mkPaymentPlan 25000 "USD" 18000 7000 (Some 739925)) 1000 0
              (mkWorld demo_uncovered_memory 3 0 [])
              eq_refl eq_refl eq_refl ltac:(cbn; lia) ltac:(cbn; lia))
    as (w' & new & Hrun & Hm & _).
  exists w'. split; [exact Hrun|]. rewrite Hm. reflexivity.
Defined.

Lemma pending_bound (m : Memory) : (pending m <= 6)%nat.
Proof.
  unfold pending.
  destruct (validation_logged _), (is_set (vendor_kyc_ok m)),
    (is_set (vendor_aml_ok m)), (payment_plan m) as [p|];
    try destruct (_ <? _); try destruct (_ && _); cbn; lia.
Qed.

(** From any memory, fresh or not, that holds no plan, or a plan whose
    immediate part is executed already or within the balance, the loop is
    over within seven iterations, and within as many as the planner has
    steps pending, plus one: it is left by [break], or by the
    [OverflowError] of an amount that does not render; by [break] when the
    amounts the run will format render. *)
Theorem covered_run_terminates (env : Env) (step : nat) (w : World) :
  plan_covered (w_mem w) ->
  let fuel := S (pending (w_mem w)) in
  ((exists w', loop env fuel step w = Finished w')
   \/ (exists w', loop env fuel step w = Crashed "OverflowError" w'))
  /\ (amounts_render (w_mem w) -> exists w', loop env fuel step w = Finished w')
  /\ (fuel <= 7)%nat.
Proof.
  intros Hc. cbv zeta.
  destruct (loop_terminates env (pending (w_mem w)) step w Hc (Nat.le_refl _))
    as (H1 & H2).
  split; [exact H1|]. split; [exact H2|].
  pose proof (pending_bound (w_mem w)). lia.
Qed.

Lemma covered_run_terminates_demo :
  exists w', loop demo_env 3 4 (mkWorld demo_planned_memory 12 0 []) = Finished w'.
Proof.
  destruct (covered_run_terminates demo_env 4
              (mkWorld demo_planned_memory 12 0 []) ltac:(cbn; lia))
    as (_ & Hrun & _).
  apply Hrun. split; reflexivity.
Defined.

(** ** How the loop is left *)




(** An execution whose amount does not render takes the money and fails.
    When the planner's answer is [execute_immediate] and the plan's
    immediate part is positive, within the balance and too large for
    [cents/100], the loop ends there in [OverflowError]: the account is
    debited and a uuid drawn, only the Thought line is logged, the amount
    is not recorded as executed, and the planner's answer on the memory
    left behind is [execute_immediate] again. *)
Theorem unrendered_execution_debits_then_raises (env : Env) (fuel step : nat)
    (w : World) (p : PaymentPlan) :
  next_action (w_mem w) = Some execute_immediate ->
  payment_plan (w_mem w) = Some p ->
  renders (immediate_cents p) = false ->
  0 < immediate_cents p <= balance_cents (account (w_mem w)) ->
  exists w',
    loop env (S fuel) step w = Crashed "OverflowError" w'
    /\ w_mem w' =
       set_audit_log
         (audit_log (w_mem w)
            ++ [stamped env (w_clock w)
                  ("Thought " ++ str_nat (S step)
                     ++ ": Deciding to 'execute_immediate'.")])
         (set_account (debited (account (w_mem w)) (immediate_cents p)) (w_mem w))
    /\ w_uuids w' = S (w_uuids w)
    /\ w_clock w' = S (w_clock w)
    /\ next_action (w_mem w') = Some execute_immediate.
Proof.
  intros Hna Hp Hrend Hcov.
  pose proof (next_action_inv (w_mem w)) as Hinv. rewrite Hna in Hinv.
  destruct Hinv as (Hlog & _).
  eexists. split.
  { apply loop_crash. rewrite (iteration_action _ _ _ _ Hna).
    erewrite dispatch_execute_overflow; [|exact Hp|exact Hrend].
    reflexivity. }
  mem_fields.
  rewrite (execute_payment_overflow env _ _ _ _ Hcov Hrend).
  cbn [acct_after uuids_after].
  split; [reflexivity|]. split; [reflexivity|]. split; [reflexivity|].
  rewrite <- Hna. unfold next_action. mem_fields.
  rewrite validation_logged_app, Hlog. reflexivity.
Qed.

Lemma unrendered_execution_debits_then_raises_demo :
  exists w',
    loop demo_env 1 4 huge_planned_world = Crashed "OverflowError" w'
    /\ balance_cents (account (w_mem w')) = 10 ^ 311
    /\ executed_amount_cents (w_mem w') = 0.
Proof.
  destruct (unrendered_execution_debits_then_raises demo_env 0 4
              huge_planned_world
              (mkPaymentPlan (10 ^ 311) "USD" (10 ^ 311) 0 None)
              eq_refl eq_refl eq_refl
              ltac:(split; [reflexivity | vm_compute; discriminate]))
    as (w' & Hrun & Hm & _).
  exists w'. split; [exact Hrun|]. rewrite Hm. split; vm_compute; reflexivity.
Defined.

(** ** What a run does not depend on *)






